(** * JWT tutorial service: login handler and bearer-token middleware

    Shallow embedding of [HandleLogin] (user service), of
    [jwtAuthMiddleware] with its key function (auth service) and of the
    parts of [github.com/golang-jwt/jwt/v5], [encoding/base64],
    [encoding/json], [strings], [crypto/hmac] and [crypto/sha256],
    [crypto/sha512] that the two functions call.

    Conventions of the model:
    - a Go [string] and a [[]byte] are byte sequences, both modelled by
      [string] (a list of 8-bit characters);
    - a [time.Time] is a number of nanoseconds since the Unix epoch, and
      the wall clock is a sequence of readings;
    - a Go call either returns or panics ([go]);
    - a run records the calls it makes to the parser, to the key
      function, to the signing method and to the wrapped handler
      ([Call]), so that "is not attempted" can be stated;
    - JSON texts are objects of scalar members; strings are taken to be
      valid UTF-8 and numbers to be integers (see [Value]);
    - logging ([log.Println]) is left out.

    The hash functions are the real ones: the file checks them against
    published digests, and the tokens it computes are the tokens the
    service issues. *)

From Stdlib Require Import ZArith NArith Ascii String List Bool Lia.
From Stdlib Require Import DecimalString DecimalZ.
From stdpp Require Import base option list strings gmap sorting.

Open Scope Z_scope.

(** ** Byte strings *)

(** [[]byte(s)] and [string(b)] : both conversions copy the bytes. *)
Definition bytes : Type := string.

Fixpoint str_of_list (l : list ascii) : string :=
  match l with
  | [] => EmptyString
  | c :: l' => String c (str_of_list l')
  end.

Fixpoint list_of_str (s : string) : list ascii :=
  match s with
  | EmptyString => []
  | String c s' => c :: list_of_str s'
  end.

(** ** encoding/base64, [RawURLEncoding] *)

(** A group of six bits, most significant bit first. *)
Inductive sextet : Type :=
  Sextet (b5 b4 b3 b2 b1 b0 : bool).

Definition encodeURL : string :=
  "ABCDEFGHIJKLMNOPQRSTUVWXYZabcdefghijklmnopqrstuvwxyz0123456789-_".

Definition bit (b : bool) (w : nat) : nat := if b then w else 0%nat.

Definition sextet_index (x : sextet) : nat :=
  match x with
  | Sextet b5 b4 b3 b2 b1 b0 =>
      (bit b5 32 + bit b4 16 + bit b3 8 + bit b2 4 + bit b1 2 + bit b0 1)%nat
  end.

(** [enc.encode[v]] *)
Definition sextet_char (x : sextet) : ascii :=
  match String.get (sextet_index x) encodeURL with
  | Some c => c
  | None => "A"%char
  end.

Definition all_sextets : list sextet :=
  b5 ← [false; true]; b4 ← [false; true]; b3 ← [false; true];
  b2 ← [false; true]; b1 ← [false; true]; b0 ← [false; true];
  [Sextet b5 b4 b3 b2 b1 b0].

(** [enc.decodeMap[c]]; [None] stands for the entry 0xff. *)
Definition char_sextet (c : ascii) : option sextet :=
  find (fun x => Ascii.eqb (sextet_char x) c) all_sextets.

(** [Encoding.EncodeToString] without padding: three bytes give four
    characters, a rest of one byte gives two and a rest of two gives
    three, the unused low bits being zero. *)
Fixpoint b64_encode (src : bytes) : string :=
  match src with
  | EmptyString => EmptyString
  | String (Ascii x0 x1 x2 x3 x4 x5 x6 x7) EmptyString =>
      String (sextet_char (Sextet x7 x6 x5 x4 x3 x2))
        (String (sextet_char (Sextet x1 x0 false false false false))
           EmptyString)
  | String (Ascii x0 x1 x2 x3 x4 x5 x6 x7)
      (String (Ascii y0 y1 y2 y3 y4 y5 y6 y7) EmptyString) =>
      String (sextet_char (Sextet x7 x6 x5 x4 x3 x2))
        (String (sextet_char (Sextet x1 x0 y7 y6 y5 y4))
           (String (sextet_char (Sextet y3 y2 y1 y0 false false))
              EmptyString))
  | String (Ascii x0 x1 x2 x3 x4 x5 x6 x7)
      (String (Ascii y0 y1 y2 y3 y4 y5 y6 y7)
         (String (Ascii z0 z1 z2 z3 z4 z5 z6 z7) rest)) =>
      String (sextet_char (Sextet x7 x6 x5 x4 x3 x2))
        (String (sextet_char (Sextet x1 x0 y7 y6 y5 y4))
           (String (sextet_char (Sextet y3 y2 y1 y0 z7 z6))
              (String (sextet_char (Sextet z5 z4 z3 z2 z1 z0))
                 (b64_encode rest))))
  end.

(** The decoder reads the input character by character: a line feed or
    a carriage return is skipped, a character outside the alphabet is a
    [CorruptInputError]. *)
Fixpoint b64_sextets (s : string) : option (list sextet) :=
  match s with
  | EmptyString => Some []
  | String c s' =>
      if Ascii.eqb c "010"%char || Ascii.eqb c "013"%char then b64_sextets s'
      else
        match char_sextet c with
        | None => None
        | Some x =>
            match b64_sextets s' with
            | None => None
            | Some l => Some (x :: l)
            end
        end
  end.

(** [decodeQuantum] without strict mode: four sextets give three bytes;
    at the end of the input two sextets give one byte and three give
    two, whatever their unused low bits are; a single sextet is a
    [CorruptInputError]. *)
Fixpoint b64_bytes (l : list sextet) : option bytes :=
  match l with
  | [] => Some EmptyString
  | [_] => None
  | [Sextet a5 a4 a3 a2 a1 a0; Sextet b5 b4 _ _ _ _] =>
      Some (String (Ascii b4 b5 a0 a1 a2 a3 a4 a5) EmptyString)
  | [Sextet a5 a4 a3 a2 a1 a0; Sextet b5 b4 b3 b2 b1 b0;
     Sextet c5 c4 c3 c2 _ _] =>
      Some (String (Ascii b4 b5 a0 a1 a2 a3 a4 a5)
              (String (Ascii c2 c3 c4 c5 b0 b1 b2 b3) EmptyString))
  | Sextet a5 a4 a3 a2 a1 a0 :: Sextet b5 b4 b3 b2 b1 b0
      :: Sextet c5 c4 c3 c2 c1 c0 :: Sextet d5 d4 d3 d2 d1 d0 :: rest =>
      match b64_bytes rest with
      | None => None
      | Some out =>
          Some (String (Ascii b4 b5 a0 a1 a2 a3 a4 a5)
                  (String (Ascii c2 c3 c4 c5 b0 b1 b2 b3)
                     (String (Ascii d0 d1 d2 d3 d4 d5 c0 c1) out)))
      end
  end.

(** [base64.RawURLEncoding.DecodeString] *)
Definition b64_decode (s : string) : option bytes :=
  match b64_sextets s with
  | None => None
  | Some l => b64_bytes l
  end.

(** ** Package strings *)

(** First occurrence of the separator: the text before it and the text
    after it ([strings.Index] followed by the two slice expressions of
    [genSplit]).  Both call sites pass a separator of one byte. *)
Fixpoint cut (sep : ascii) (s : string) : option (string * string) :=
  match s with
  | EmptyString => None
  | String c s' =>
      if Ascii.eqb c sep then Some (EmptyString, s')
      else
        match cut sep s' with
        | None => None
        | Some (a, b) => Some (String c a, b)
        end
  end.

(** [strings.Count(s, sep)] *)
Fixpoint Count (sep : ascii) (s : string) : nat :=
  match s with
  | EmptyString => 0%nat
  | String c s' => ((if Ascii.eqb c sep then 1 else 0) + Count sep s')%nat
  end.

(** [genSplit(s, sep, 0, n)] for [n >= 0]: at most [n] pieces, the last
    one being the unsplit remainder. *)
Fixpoint genSplit (sep : ascii) (n : nat) (s : string) : list string :=
  match n with
  | O => []
  | S O => [s]
  | S n' =>
      match cut sep s with
      | None => [s]
      | Some (a, b) => a :: genSplit sep n' b
      end
  end.

(** [strings.SplitN(s, sep, n)]; a negative [n] asks for all pieces. *)
Definition SplitN (s : string) (sep : ascii) (n : Z) : list string :=
  if n <? 0 then genSplit sep (Count sep s + 1) s
  else genSplit sep (Z.to_nat n) s.

(** [strings.Split(s, sep)] *)
Definition Split (s : string) (sep : ascii) : list string := SplitN s sep (-1).

(** [strings.Join(elems, sep)] *)
Fixpoint Join (elems : list string) (sep : string) : string :=
  match elems with
  | [] => EmptyString
  | [e] => e
  | e :: rest => e +:+ sep +:+ Join rest sep
  end.

Definition lower_byte (c : ascii) : ascii :=
  let n := N_of_ascii c in
  if ((65 <=? n) && (n <=? 90))%N then ascii_of_N (n + 32) else c.

(** [strings.ToLower]: the letters A to Z are mapped to a to z.  Bytes
    of 0x80 and above are left as they are here; Go maps the runes they
    spell, none of which becomes one of the ASCII letters of the word
    the middleware compares with. *)
Fixpoint ToLower (s : string) : string :=
  match s with
  | EmptyString => EmptyString
  | String c s' => String (lower_byte c) (ToLower s')
  end.

(** ** encoding/json, for objects of scalar members *)

(** The [interface{}] values of a token header or of a [jwt.MapClaims].
    A number is kept by its integer value: [HandleLogin] stores [int64]
    seconds, and the [float64] that the decoder makes of a number holds
    an integer exactly while its magnitude is below 2^53, far beyond
    the seconds of any date.  A string is kept byte by byte, which is
    what the codec does to valid UTF-8.  Nested arrays and objects and
    numbers with a fraction or an exponent are outside the model:
    [json_Unmarshal] refuses them. *)
Inductive Value : Type :=
  | VNull
  | VBool (b : bool)
  | VNum (n : Z)
  | VStr (s : string).

#[global] Instance Value_eq_dec : EqDecision Value.
Proof. solve_decision. Defined.

Definition dquote : ascii := "034"%char.
Definition bslash : ascii := "092"%char.

Definition hexdigits : string := "0123456789abcdef".

Definition hex_char (n : N) : ascii :=
  match String.get (N.to_nat n) hexdigits with
  | Some c => c
  | None => "0"%char
  end.

(** [encodeState.string] with HTML escaping, for one byte below 0x80;
    larger bytes are copied. *)
Definition escape_byte (c : ascii) : string :=
  let n := N_of_ascii c in
  if Ascii.eqb c dquote then String bslash (String dquote EmptyString)
  else if Ascii.eqb c bslash then String bslash (String bslash EmptyString)
  else if Ascii.eqb c "010"%char then String bslash "n"
  else if Ascii.eqb c "013"%char then String bslash "r"
  else if Ascii.eqb c "009"%char then String bslash "t"
  else if Ascii.eqb c "008"%char then String bslash "b"
  else if Ascii.eqb c "012"%char then String bslash "f"
  else if (n <? 32)%N || Ascii.eqb c "<"%char || Ascii.eqb c ">"%char
          || Ascii.eqb c "&"%char
  then String bslash
         (String "u" (String "0" (String "0"
            (String (hex_char (n / 16)) (String (hex_char (n mod 16))
               EmptyString)))))
  else String c EmptyString.

Fixpoint escape (s : string) : string :=
  match s with
  | EmptyString => EmptyString
  | String c s' => escape_byte c +:+ escape s'
  end.

Definition json_string (s : string) : string :=
  String dquote (escape s +:+ String dquote EmptyString).

(** [strconv.AppendInt(n, 10)] *)
Definition json_int (n : Z) : string := NilZero.string_of_int (Z.to_int n).

Definition json_value (v : Value) : string :=
  match v with
  | VNull => "null"
  | VBool true => "true"
  | VBool false => "false"
  | VNum n => json_int n
  | VStr s => json_string s
  end.

Fixpoint json_members (l : list (string * Value)) : string :=
  match l with
  | [] => EmptyString
  | [(k, v)] => json_string k +:+ ":" +:+ json_value v
  | (k, v) :: rest =>
      json_string k +:+ ":" +:+ json_value v +:+ "," +:+ json_members rest
  end.

Definition key_le (p q : string * Value) : Prop := String.le p.1 q.1.

#[global] Instance key_le_dec : RelDecision key_le.
Proof. intros p q. unfold key_le. apply _. Defined.

(** [json.Marshal] of a map: the members in the order of their keys. *)
Definition json_Marshal (m : gmap string Value) : bytes :=
  "{" +:+ json_members (merge_sort key_le (map_to_list m)) +:+ "}".

(** *** Decoding *)

Definition is_space (c : ascii) : bool :=
  Ascii.eqb c " "%char || Ascii.eqb c "009"%char || Ascii.eqb c "010"%char
  || Ascii.eqb c "013"%char.

Fixpoint skip_ws (s : string) : string :=
  match s with
  | EmptyString => EmptyString
  | String c s' => if is_space c then skip_ws s' else s
  end.

Definition hex_val (c : ascii) : option N :=
  let n := N_of_ascii c in
  if ((48 <=? n) && (n <=? 57))%N then Some (n - 48)%N
  else if ((97 <=? n) && (n <=? 102))%N then Some (n - 87)%N
  else if ((65 <=? n) && (n <=? 70))%N then Some (n - 55)%N
  else None.

(** [getu4]: the code unit written by four hexadecimal digits. *)
Definition hex4 (h1 h2 h3 h4 : ascii) : option N :=
  match hex_val h1, hex_val h2, hex_val h3, hex_val h4 with
  | Some a, Some b, Some c, Some d => Some (((a * 16 + b) * 16 + c) * 16 + d)%N
  | _, _, _, _ => None
  end.

(** [utf8.EncodeRune] *)
Definition utf8_encode (r : N) : string :=
  if (r <? 128)%N then String (ascii_of_N r) EmptyString
  else if (r <? 2048)%N then
    String (ascii_of_N (192 + r / 64))
      (String (ascii_of_N (128 + r mod 64)) EmptyString)
  else if (r <? 65536)%N then
    String (ascii_of_N (224 + r / 4096))
      (String (ascii_of_N (128 + (r / 64) mod 64))
         (String (ascii_of_N (128 + r mod 64)) EmptyString))
  else
    String (ascii_of_N (240 + r / 262144))
      (String (ascii_of_N (128 + (r / 4096) mod 64))
         (String (ascii_of_N (128 + (r / 64) mod 64))
            (String (ascii_of_N (128 + r mod 64)) EmptyString))).

Definition is_surrogate (r : N) : bool := ((55296 <=? r) && (r <? 57344))%N.

(** [utf16.DecodeRune]: a high surrogate followed by a low one. *)
Definition decode_pair (r1 r2 : N) : option N :=
  if ((55296 <=? r1) && (r1 <? 56320) && (56320 <=? r2) && (r2 <? 57344))%N
  then Some ((r1 - 55296) * 1024 + (r2 - 56320) + 65536)%N
  else None.

Definition replacement_char : N := 65533%N.

Definition simple_escape (e : ascii) : option ascii :=
  if Ascii.eqb e dquote then Some dquote
  else if Ascii.eqb e bslash then Some bslash
  else if Ascii.eqb e "/"%char then Some "/"%char
  else if Ascii.eqb e "b"%char then Some "008"%char
  else if Ascii.eqb e "f"%char then Some "012"%char
  else if Ascii.eqb e "n"%char then Some "010"%char
  else if Ascii.eqb e "r"%char then Some "013"%char
  else if Ascii.eqb e "t"%char then Some "009"%char
  else None.

Definition prepend (p : string) (r : option (string * string))
  : option (string * string) :=
  match r with
  | None => None
  | Some (a, rest) => Some (p +:+ a, rest)
  end.

(** A string literal after its opening quote: the text it denotes and
    the input that follows the closing quote ([unquote] together with
    the scanner's check of control characters). *)
Fixpoint unquote (s : string) : option (string * string) :=
  match s with
  | EmptyString => None
  | String c s1 =>
      if Ascii.eqb c dquote then Some (EmptyString, s1)
      else if (N_of_ascii c <? 32)%N then None
      else if Ascii.eqb c bslash then
        match s1 with
        | EmptyString => None
        | String e s2 =>
            if Ascii.eqb e "u"%char then
              match s2 with
              | String h1 (String h2 (String h3 (String h4 s3))) =>
                  match hex4 h1 h2 h3 h4 with
                  | None => None
                  | Some rr =>
                      if is_surrogate rr then
                        match s3 with
                        | String b1 (String u1 (String k1 (String k2
                            (String k3 (String k4 s4))))) =>
                            match
                              (if Ascii.eqb b1 bslash && Ascii.eqb u1 "u"%char
                               then hex4 k1 k2 k3 k4 else None)
                            with
                            | Some rr1 =>
                                match decode_pair rr rr1 with
                                | Some r => prepend (utf8_encode r) (unquote s4)
                                | None =>
                                    prepend (utf8_encode replacement_char)
                                      (unquote s3)
                                end
                            | None =>
                                prepend (utf8_encode replacement_char)
                                  (unquote s3)
                            end
                        | _ =>
                            prepend (utf8_encode replacement_char) (unquote s3)
                        end
                      else prepend (utf8_encode rr) (unquote s3)
                  end
              | _ => None
              end
            else
              match simple_escape e with
              | None => None
              | Some x => prepend (String x EmptyString) (unquote s2)
              end
        end
      else prepend (String c EmptyString) (unquote s1)
  end.

Definition digit_of_char (c : ascii)
  : option (Decimal.uint -> Decimal.uint) :=
  if Ascii.eqb c "0"%char then Some Decimal.D0
  else if Ascii.eqb c "1"%char then Some Decimal.D1
  else if Ascii.eqb c "2"%char then Some Decimal.D2
  else if Ascii.eqb c "3"%char then Some Decimal.D3
  else if Ascii.eqb c "4"%char then Some Decimal.D4
  else if Ascii.eqb c "5"%char then Some Decimal.D5
  else if Ascii.eqb c "6"%char then Some Decimal.D6
  else if Ascii.eqb c "7"%char then Some Decimal.D7
  else if Ascii.eqb c "8"%char then Some Decimal.D8
  else if Ascii.eqb c "9"%char then Some Decimal.D9
  else None.

(** The longest run of decimal digits at the head of the input. *)
Fixpoint read_uint (s : string) : Decimal.uint * string :=
  match s with
  | EmptyString => (Decimal.Nil, EmptyString)
  | String c s' =>
      match digit_of_char c with
      | None => (Decimal.Nil, s)
      | Some d => let '(u, rest) := read_uint s' in (d u, rest)
      end
  end.

Definition uint_eqb (a b : Decimal.uint) : bool :=
  if Decimal.uint_eq_dec a b then true else false.

(** An integer literal: digits without a leading zero (a lone 0
    excepted), with an optional minus sign. *)
Definition read_int (s : string) : option (Z * string) :=
  let '(neg, s1) :=
    match s with
    | String "-" s' => (true, s')
    | _ => (false, s)
    end in
  let '(u, rest) := read_uint s1 in
  if uint_eqb u Decimal.Nil then None
  else if negb (uint_eqb (Decimal.unorm u) u) then None
  else Some (if neg then - Z.of_uint u else Z.of_uint u, rest).

Fixpoint strip_prefix (p s : string) : option string :=
  match p, s with
  | EmptyString, _ => Some s
  | String a p', String b s' =>
      if Ascii.eqb a b then strip_prefix p' s' else None
  | String _ _, EmptyString => None
  end.

(** A scalar value at the head of the input and the input after it. *)
Definition parse_value (s : string) : option (Value * string) :=
  match s with
  | EmptyString => None
  | String c s' =>
      if Ascii.eqb c dquote then
        match unquote s' with
        | None => None
        | Some (x, rest) => Some (VStr x, rest)
        end
      else if Ascii.eqb c "t"%char then
        option_map (fun rest => (VBool true, rest)) (strip_prefix "true" s)
      else if Ascii.eqb c "f"%char then
        option_map (fun rest => (VBool false, rest)) (strip_prefix "false" s)
      else if Ascii.eqb c "n"%char then
        option_map (fun rest => (VNull, rest)) (strip_prefix "null" s)
      else
        match read_int s with
        | None => None
        | Some (n, rest) => Some (VNum n, rest)
        end
  end.

(** The members of an object, the input standing at the first key; the
    result also carries the input after the closing brace.  Each member
    consumes input, so a fuel of the input's length is never used up. *)
Fixpoint parse_members (fuel : nat) (s : string)
  : option (list (string * Value) * string) :=
  match fuel with
  | O => None
  | S fuel' =>
      match s with
      | String c s1 =>
          if Ascii.eqb c dquote then
            match unquote s1 with
            | None => None
            | Some (k, r1) =>
                match skip_ws r1 with
                | String ":" r2 =>
                    match parse_value (skip_ws r2) with
                    | None => None
                    | Some (v, r3) =>
                        match skip_ws r3 with
                        | String "," r4 =>
                            match parse_members fuel' (skip_ws r4) with
                            | None => None
                            | Some (ms, r5) => Some ((k, v) :: ms, r5)
                            end
                        | String "}" r4 => Some ([(k, v)], r4)
                        | _ => None
                        end
                    end
                | _ => None
                end
            end
          else None
      | EmptyString => None
      end
  end.

(** A later member replaces an earlier one of the same key. *)
Definition object_of_members (ms : list (string * Value)) : gmap string Value :=
  list_to_map (reverse ms).

Definition at_end (s : string) : bool :=
  match skip_ws s with
  | EmptyString => true
  | _ => false
  end.

(** [json.Unmarshal(data, &m)] for a map [m] that is empty before the
    call: an object fills it, [null] leaves it empty, anything else is
    an error. *)
Definition json_Unmarshal (data : bytes) : option (gmap string Value) :=
  match skip_ws data with
  | String "{" r =>
      match skip_ws r with
      | String "}" r' => if at_end r' then Some ∅ else None
      | r1 =>
          match parse_members (String.length data) r1 with
          | None => None
          | Some (ms, r2) =>
              if at_end r2 then Some (object_of_members ms) else None
          end
      end
  | String "n" _ =>
      match strip_prefix "null" (skip_ws data) with
      | Some r => if at_end r then Some ∅ else None
      | None => None
      end
  | _ => None
  end.

(** ** crypto/sha256, crypto/sha512 and crypto/hmac *)

(** The three hash functions of the HMAC signing methods are instances
    of one SHA-2 construction over words of [wbits] bits. *)
Record Sha2 : Type := {
  wbits : N;
  nrounds : nat;
  bigS0 : N * N * N;
  bigS1 : N * N * N;
  smallS0 : N * N * N;
  smallS1 : N * N * N;
  roundK : list N;
  initH : list N;
  outWords : nat
}.

Definition primes80 : list N :=
  [2; 3; 5; 7; 11; 13; 17; 19; 23; 29; 31; 37; 41; 43; 47; 53; 59; 61; 67; 71;
   73; 79; 83; 89; 97; 101; 103; 107; 109; 113; 127; 131; 137; 139; 149; 151;
   157; 163; 167; 173; 179; 181; 191; 193; 197; 199; 211; 223; 227; 229; 233;
   239; 241; 251; 257; 263; 269; 271; 277; 281; 283; 293; 307; 311; 313; 317;
   331; 337; 347; 349; 353; 359; 367; 373; 379; 383; 389; 397; 401; 409]%N.

(** Integer cube root, one bit at a time from bit [k - 1] down. *)
Fixpoint cbrt_bits (k : nat) (x r : N) : N :=
  match k with
  | O => r
  | S k' =>
      let c := (r + 2 ^ N.of_nat k')%N in
      cbrt_bits k' x (if (c * c * c <=? x)%N then c else r)
  end.

(** The first [w] bits of the fractional part of the cube root, and of
    the square root, of [p]. *)
Definition frac_cbrt (w p : N) : N :=
  (cbrt_bits (N.to_nat w + 4) (p * 2 ^ (3 * w)) 0 mod 2 ^ w)%N.

Definition frac_sqrt (w p : N) : N := (N.sqrt (p * 2 ^ (2 * w)) mod 2 ^ w)%N.

Definition sha256_K : list N :=
  Eval vm_compute in map (frac_cbrt 32) (take 64 primes80).
Definition sha256_H : list N :=
  Eval vm_compute in map (frac_sqrt 32) (take 8 primes80).
Definition sha512_K : list N :=
  Eval vm_compute in map (frac_cbrt 64) primes80.
Definition sha512_H : list N :=
  Eval vm_compute in map (frac_sqrt 64) (take 8 primes80).
Definition sha384_H : list N :=
  Eval vm_compute in map (frac_sqrt 64) (take 8 (drop 8 primes80)).

Definition sha256_params : Sha2 := {|
  wbits := 32;
  nrounds := 64;
  bigS0 := (2, 13, 22)%N;
  bigS1 := (6, 11, 25)%N;
  smallS0 := (7, 18, 3)%N;
  smallS1 := (17, 19, 10)%N;
  roundK := sha256_K;
  initH := sha256_H;
  outWords := 8
|}.

Definition sha512_params : Sha2 := {|
  wbits := 64;
  nrounds := 80;
  bigS0 := (28, 34, 39)%N;
  bigS1 := (14, 18, 41)%N;
  smallS0 := (1, 8, 7)%N;
  smallS1 := (19, 61, 6)%N;
  roundK := sha512_K;
  initH := sha512_H;
  outWords := 8
|}.

Definition sha384_params : Sha2 := {|
  wbits := 64;
  nrounds := 80;
  bigS0 := (28, 34, 39)%N;
  bigS1 := (14, 18, 41)%N;
  smallS0 := (1, 8, 7)%N;
  smallS1 := (19, 61, 6)%N;
  roundK := sha512_K;
  initH := sha384_H;
  outWords := 6
|}.

Section Sha2Rounds.
Variable P : Sha2.

Definition wmask (x : N) : N := (x mod 2 ^ wbits P)%N.
Definition wadd (x y : N) : N := wmask (x + y).
Definition rotr (x n : N) : N :=
  N.lor (N.shiftr x n) (wmask (N.shiftl x (wbits P - n))).
Definition wnot (x : N) : N := N.lxor x (2 ^ wbits P - 1).

Definition bigSigma (r : N * N * N) (x : N) : N :=
  let '(a, b, c) := r in N.lxor (N.lxor (rotr x a) (rotr x b)) (rotr x c).
Definition smallSigma (r : N * N * N) (x : N) : N :=
  let '(a, b, c) := r in N.lxor (N.lxor (rotr x a) (rotr x b)) (N.shiftr x c).

Definition Ch (x y z : N) : N := N.lxor (N.land x y) (N.land (wnot x) z).
Definition Maj (x y z : N) : N :=
  N.lxor (N.lxor (N.land x y) (N.land x z)) (N.land y z).

(** The message schedule, newest word first: [recent] holds the last
    sixteen words at least. *)
Fixpoint schedule (n : nat) (recent : list N) : list N :=
  match n with
  | O => recent
  | S n' =>
      let w :=
        wadd (wadd (smallSigma (smallS1 P) (nth 1 recent 0%N)) (nth 6 recent 0%N))
             (wadd (smallSigma (smallS0 P) (nth 14 recent 0%N)) (nth 15 recent 0%N))
      in schedule n' (w :: recent)
  end.

Definition sha_round (st : list N) (kw : N * N) : list N :=
  match st with
  | [a; b; c; d; e; f; g; h] =>
      let t1 :=
        wadd (wadd (wadd h (bigSigma (bigS1 P) e))
                (wadd (Ch e f g) kw.1)) kw.2 in
      let t2 := wadd (bigSigma (bigS0 P) a) (Maj a b c) in
      [wadd t1 t2; a; b; c; wadd d t1; e; f; g]
  | _ => st
  end.

(** One block of sixteen words. *)
Definition compress (H : list N) (blk : list N) : list N :=
  let ws := reverse (schedule (nrounds P - 16) (reverse blk)) in
  let st := fold_left sha_round (zip (roundK P) ws) H in
  zip_with wadd H st.

(** Big-endian bytes of a number. *)
Fixpoint be_bytes (n : nat) (x : N) : list N :=
  match n with
  | O => []
  | S n' => ((x / 256 ^ N.of_nat n') mod 256)%N :: be_bytes n' x
  end.

Definition be_word (bs : list N) : N :=
  fold_left (fun acc b => (acc * 256 + b)%N) bs 0%N.

Fixpoint chunks (fuel size : nat) (l : list N) : list (list N) :=
  match fuel with
  | O => []
  | S fuel' =>
      match l with
      | [] => []
      | _ => take size l :: chunks fuel' size (drop size l)
      end
  end.

Definition wbytes : nat := N.to_nat (wbits P / 8).
Definition block_bytes : nat := (16 * wbytes)%nat.

(** The message followed by the byte 0x80, zero bytes and the bit
    length on two words, a whole number of blocks in all. *)
Definition pad (msg : list N) : list N :=
  let len := length msg in
  let used := ((len + 1 + 2 * wbytes) mod block_bytes)%nat in
  let zeros := ((block_bytes - used) mod block_bytes)%nat in
  msg ++ [128%N] ++ replicate zeros 0%N
      ++ be_bytes (2 * wbytes) (8 * N.of_nat len).

Definition sha2 (msg : bytes) : bytes :=
  let bs := pad (map N_of_ascii (list_of_str msg)) in
  let words := map be_word (chunks (length bs) wbytes bs) in
  let H := fold_left compress (chunks (length words) 16 words) (initH P) in
  str_of_list
    (map ascii_of_N (flat_map (be_bytes wbytes) (take (outWords P) H))).

Definition xor_pad (p : N) (key : list N) : bytes :=
  str_of_list (map (fun k => ascii_of_N (N.lxor k p)) key).

(** [hmac.New(h, key)], [Write(msg)], [Sum(nil)] *)
Definition hmac_sha2 (key msg : bytes) : bytes :=
  let k0 :=
    if (block_bytes <? String.length key)%nat then sha2 key else key in
  let kb := map N_of_ascii (list_of_str k0) in
  let kp := kb ++ replicate (block_bytes - length kb) 0%N in
  sha2 (xor_pad 92 kp +:+ sha2 (xor_pad 54 kp +:+ msg)).
End Sha2Rounds.

Inductive Hash : Type := SHA256 | SHA384 | SHA512.

Definition hash_params (h : Hash) : Sha2 :=
  match h with
  | SHA256 => sha256_params
  | SHA384 => sha384_params
  | SHA512 => sha512_params
  end.

Definition hmac_sum (h : Hash) (key msg : bytes) : bytes :=
  hmac_sha2 (hash_params h) key msg.

(** Bytes in hexadecimal, to compare with published digests. *)
Definition hex_of_bytes (b : bytes) : string :=
  str_of_list
    (flat_map (fun c => [hex_char (N_of_ascii c / 16);
                         hex_char (N_of_ascii c mod 16)]) (list_of_str b)).

(** ** github.com/golang-jwt/jwt/v5 *)

(** The sentinel errors of the package.  An [error] value is given by
    the sentinels it wraps, outermost first: [errors.Is(err, s)] holds
    when [s] is in the list. *)
Inductive Sentinel : Type :=
  | ErrInvalidKeyType
  | ErrSignatureInvalid
  | NoneSignatureTypeDisallowedError
  | ErrTokenMalformed
  | ErrTokenUnverifiable
  | ErrTokenSignatureInvalid
  | ErrTokenRequiredClaimMissing
  | ErrTokenExpired
  | ErrTokenNotValidYet
  | ErrTokenInvalidClaims
  | ErrInvalidType.

#[global] Instance Sentinel_eq_dec : EqDecision Sentinel.
Proof. solve_decision. Defined.

Definition error : Type := list Sentinel.

(** [errors.Is(err, s)] *)
Definition errors_Is (err : error) (s : Sentinel) : bool :=
  bool_decide (s ∈ err).

(** The signing methods the package registers when it is loaded. *)
Inductive SigningMethod : Type :=
  | SigningMethodHS256 | SigningMethodHS384 | SigningMethodHS512
  | SigningMethodRS256 | SigningMethodRS384 | SigningMethodRS512
  | SigningMethodPS256 | SigningMethodPS384 | SigningMethodPS512
  | SigningMethodES256 | SigningMethodES384 | SigningMethodES512
  | SigningMethodEdDSA
  | SigningMethodNone.

#[global] Instance SigningMethod_eq_dec : EqDecision SigningMethod.
Proof. solve_decision. Defined.

Definition signingMethods : list SigningMethod :=
  [SigningMethodHS256; SigningMethodHS384; SigningMethodHS512;
   SigningMethodRS256; SigningMethodRS384; SigningMethodRS512;
   SigningMethodPS256; SigningMethodPS384; SigningMethodPS512;
   SigningMethodES256; SigningMethodES384; SigningMethodES512;
   SigningMethodEdDSA; SigningMethodNone].

(** [SigningMethod.Alg()] *)
Definition Alg (m : SigningMethod) : string :=
  match m with
  | SigningMethodHS256 => "HS256"
  | SigningMethodHS384 => "HS384"
  | SigningMethodHS512 => "HS512"
  | SigningMethodRS256 => "RS256"
  | SigningMethodRS384 => "RS384"
  | SigningMethodRS512 => "RS512"
  | SigningMethodPS256 => "PS256"
  | SigningMethodPS384 => "PS384"
  | SigningMethodPS512 => "PS512"
  | SigningMethodES256 => "ES256"
  | SigningMethodES384 => "ES384"
  | SigningMethodES512 => "ES512"
  | SigningMethodEdDSA => "EdDSA"
  | SigningMethodNone => "none"
  end.

(** [jwt.GetSigningMethod(alg)]; [None] is the nil method. *)
Definition GetSigningMethod (alg : string) : option SigningMethod :=
  find (fun m => String.eqb (Alg m) alg) signingMethods.

(** The hash of an HMAC method; the other methods have none. *)
Definition hmac_hash (m : SigningMethod) : option Hash :=
  match m with
  | SigningMethodHS256 => Some SHA256
  | SigningMethodHS384 => Some SHA384
  | SigningMethodHS512 => Some SHA512
  | _ => None
  end.

(** [Method.Sign(signingString, key)] for a key of dynamic type
    [[]byte], the only type the two services pass.  The asymmetric
    methods expect a key of another type, and the method none expects
    the constant [UnsafeAllowNoneSignatureType]. *)
Definition Sign (m : SigningMethod) (signingString : string) (key : bytes)
  : bytes + error :=
  match hmac_hash m with
  | Some h => inl (hmac_sum h key signingString)
  | None =>
      match m with
      | SigningMethodNone => inr [NoneSignatureTypeDisallowedError]
      | _ => inr [ErrInvalidKeyType]
      end
  end.

(** [Method.Verify(signingString, sig, key)], again for a [[]byte] key:
    an HMAC method computes the code anew and compares it with the
    signature ([hmac.Equal]). *)
Definition Verify (m : SigningMethod) (signingString : string)
    (sig key : bytes) : option error :=
  match hmac_hash m with
  | Some h =>
      if String.eqb sig (hmac_sum h key signingString) then None
      else Some [ErrSignatureInvalid]
  | None =>
      match m with
      | SigningMethodNone => Some [NoneSignatureTypeDisallowedError]
      | _ => Some [ErrInvalidKeyType]
      end
  end.

Record Token : Type := {
  Raw : string;
  Method : option SigningMethod;
  Header : gmap string Value;
  Claims : gmap string Value;
  Signature : bytes;
  Valid : bool
}.

(** A Go call returns or panics. *)
Inductive go (A : Type) : Type :=
  | Return (a : A)
  | Panic.
Arguments Return {A} a.
Arguments Panic {A}.

(** What a [jwt.Keyfunc] gives back: a key and a nil error, or an
    error. *)
Definition Keyfunc : Type := Token -> go (bytes + error).

(** The calls a run makes, in order. *)
Inductive Call : Type :=
  | CallParse (tokenString : string)
  | CallKeyfunc (alg : string)
  | CallVerify (m : SigningMethod) (signingString : string) (sig key : bytes)
  | CallValidate
  | CallNext.

Definition DecodeSegment (seg : string) : option bytes := b64_decode seg.
Definition EncodeSegment (seg : bytes) : string := b64_encode seg.

(** [jwt.NewWithClaims(method, claims)] *)
Definition NewWithClaims (method : SigningMethod) (claims : gmap string Value)
  : Token :=
  {| Raw := EmptyString;
     Method := Some method;
     Header := {[ "typ" := VStr "JWT"; "alg" := VStr (Alg method) ]};
     Claims := claims;
     Signature := EmptyString;
     Valid := false |}.

(** [Token.SigningString]; marshalling a map of scalars cannot fail. *)
Definition SigningString (t : Token) : string :=
  EncodeSegment (json_Marshal (Header t)) +:+ "."
    +:+ EncodeSegment (json_Marshal (Claims t)).

(** [Token.SignedString(key)]; a token without method does not occur
    (the call would panic on the nil interface). *)
Definition SignedString (t : Token) (key : bytes) : go (string + error) :=
  match Method t with
  | None => Panic
  | Some m =>
      let sstr := SigningString t in
      match Sign m sstr key with
      | inr e => Return (inr e)
      | inl sig => Return (inl (sstr +:+ "." +:+ EncodeSegment sig))
      end
  end.

(** [Parser.ParseUnverified]: the token read so far (nil when the
    string has not three segments), the segments and the error. *)
Definition ParseUnverified (tokenString : string)
  : option Token * list string * option error :=
  let parts := Split tokenString "." in
  match parts with
  | [p0; p1; _] =>
      let token0 :=
        {| Raw := tokenString; Method := None; Header := ∅; Claims := ∅;
           Signature := EmptyString; Valid := false |} in
      match DecodeSegment p0 with
      | None => (Some token0, parts, Some [ErrTokenMalformed])
      | Some headerBytes =>
          match json_Unmarshal headerBytes with
          | None => (Some token0, parts, Some [ErrTokenMalformed])
          | Some header =>
              let token1 :=
                {| Raw := tokenString; Method := None; Header := header;
                   Claims := ∅; Signature := EmptyString; Valid := false |} in
              match DecodeSegment p1 with
              | None => (Some token1, parts, Some [ErrTokenMalformed])
              | Some claimBytes =>
                  match json_Unmarshal claimBytes with
                  | None => (Some token1, parts, Some [ErrTokenMalformed])
                  | Some claims =>
                      let token2 m :=
                        {| Raw := tokenString; Method := m; Header := header;
                           Claims := claims; Signature := EmptyString;
                           Valid := false |} in
                      match header !! "alg" with
                      | Some (VStr method) =>
                          match GetSigningMethod method with
                          | None =>
                              (Some (token2 None), parts,
                               Some [ErrTokenUnverifiable])
                          | Some m => (Some (token2 (Some m)), parts, None)
                          end
                      | _ =>
                          (Some (token2 None), parts,
                           Some [ErrTokenUnverifiable])
                      end
                  end
              end
          end
      end
  | _ => (None, parts, Some [ErrTokenMalformed])
  end.

Definition second : Z := 1000000000.
Definition Hour : Z := 3600 * second.

(** [time.Time] as nanoseconds since the Unix epoch; [Time.Unix] and
    [Time.Add]. *)
Definition Unix (t : Z) : Z := t / second.
Definition Add (t d : Z) : Z := t + d.

(** [MapClaims.parseNumericDate]: no date when the claim is absent or
    is the number 0, an error when it is not a number. *)
Definition parseNumericDate (m : gmap string Value) (key : string)
  : option Z + error :=
  match m !! key with
  | None => inl None
  | Some (VNum n) => if n =? 0 then inl None else inl (Some n)
  | Some _ => inr [ErrInvalidType]
  end.

(** [Validator.verifyExpiresAt(claims, now, false)] without leeway. *)
Definition verifyExpiresAt (claims : gmap string Value) (now : Z) : error :=
  match parseNumericDate claims "exp" with
  | inr e => e
  | inl None => []
  | inl (Some exp) => if now <? exp * second then [] else [ErrTokenExpired]
  end.

(** [Validator.verifyNotBefore(claims, now, false)] without leeway. *)
Definition verifyNotBefore (claims : gmap string Value) (now : Z) : error :=
  match parseNumericDate claims "nbf" with
  | inr e => e
  | inl None => []
  | inl (Some nbf) => if now <? nbf * second then [ErrTokenNotValidYet] else []
  end.

(** [Validator.Validate] of the default validator: the expiry and the
    not-before time are checked when present, nothing is required, and
    the errors found are joined. *)
Definition Validate (claims : gmap string Value) (now : Z) : option error :=
  match verifyExpiresAt claims now ++ verifyNotBefore claims now with
  | [] => None
  | errs => Some errs
  end.

Definition validated (t : Token) (sig : bytes) : Token :=
  {| Raw := Raw t; Method := Method t; Header := Header t;
     Claims := Claims t; Signature := sig; Valid := true |}.

(** [jwt.Parse(tokenString, keyFunc)], that is [ParseWithClaims] on an
    empty [MapClaims] with a parser without options; [now] is what
    [time.Now()] reads inside [Validate].  The result carries the calls
    made to the key function, to the method and to the validator.  The
    signature segment is decoded before the key function is asked, as
    the current v5 releases do (v5.0 asked the key function first; the
    properties below hold for either order). *)
Definition Parse (tokenString : string) (keyFunc : Keyfunc) (now : Z)
  : go (option Token * option error) * list Call :=
  match ParseUnverified tokenString with
  | (token, _, Some err) => (Return (token, Some err), [])
  | (None, _, None) => (Return (None, Some [ErrTokenMalformed]), [])
  | (Some token, parts, None) =>
      match Method token, parts with
      | Some m, [p0; p1; p2] =>
          match DecodeSegment p2 with
          | None => (Return (Some token, Some [ErrTokenMalformed]), [])
          | Some sig =>
              let text := Join [p0; p1] "." in
              match keyFunc token with
              | Panic => (Panic, [CallKeyfunc (Alg m)])
              | Return (inr e) =>
                  (Return (Some token, Some (ErrTokenUnverifiable :: e)),
                   [CallKeyfunc (Alg m)])
              | Return (inl key) =>
                  match Verify m text sig key with
                  | Some e =>
                      (Return
                         (Some token, Some (ErrTokenSignatureInvalid :: e)),
                       [CallKeyfunc (Alg m); CallVerify m text sig key])
                  | None =>
                      match Validate (Claims token) now with
                      | Some e =>
                          (Return
                             (Some token, Some (ErrTokenInvalidClaims :: e)),
                           [CallKeyfunc (Alg m); CallVerify m text sig key;
                            CallValidate])
                      | None =>
                          (Return (Some (validated token sig), None),
                           [CallKeyfunc (Alg m); CallVerify m text sig key;
                            CallValidate])
                      end
                  end
              end
          end
      | _, _ => (Return (Some token, Some [ErrTokenMalformed]), [])
      end
  end.

(** ** net/http, as far as the two handlers use it *)

Module http.
Record Request : Type := {
  Header : gmap string (list string);
  Body : bytes;
  Context : gmap string (gmap string Value)
}.

(** What a handler has written: the status, the header fields it set
    itself and the body. *)
Record Response : Type := {
  StatusCode : Z;
  ResponseHeader : gmap string string;
  ResponseBody : string
}.

Definition StatusOK : Z := 200.
Definition StatusBadRequest : Z := 400.
Definition StatusUnauthorized : Z := 401.
Definition StatusInternalServerError : Z := 500.

(** [Header.Get(key)] for a key in canonical form: the first value,
    or the empty string. *)
Definition Get (h : gmap string (list string)) (key : string) : string :=
  match h !! key with
  | Some (v :: _) => v
  | _ => EmptyString
  end.

Definition newline : string := String "010"%char EmptyString.

(** [http.Error(w, msg, code)] *)
Definition Error (msg : string) (code : Z) : Response :=
  {| StatusCode := code;
     ResponseHeader :=
       {[ "Content-Type" := "text/plain; charset=utf-8";
          "X-Content-Type-Options" := "nosniff" ]};
     ResponseBody := msg +:+ newline |}.

(** [r.WithContext(context.WithValue(r.Context(), key, val))] *)
Definition WithValue (r : Request) (key : string) (val : gmap string Value)
  : Request :=
  {| Header := Header r; Body := Body r;
     Context := <[key := val]> (Context r) |}.

Definition Handler : Type := Request -> go Response.
End http.

(** ** The wall clock *)

(** The successive readings of [time.Now()], in nanoseconds since the
    Unix epoch, and the number of readings taken so far. *)
Record Clock : Type := {
  reading : nat -> Z;
  reads : nat
}.

Definition time_Now (c : Clock) : Z * Clock :=
  (reading c (reads c), {| reading := reading c; reads := S (reads c) |}).

(** Time does not run backwards. *)
Definition monotone (c : Clock) : Prop :=
  forall i j : nat, (i <= j)%nat -> reading c i <= reading c j.

(** ** The user service: [HandleLogin] *)

Record User : Type := {
  Username : string;
  Password : string
}.

(** [s[:n]]; slicing beyond the length panics. *)
Definition slice_to (s : string) (n : nat) : go string :=
  if (n <=? String.length s)%nat then Return (String.substring 0 n s) else Panic.

(** [json.NewEncoder(w).Encode(v)]: the value and a line feed. *)
Definition json_Encode (m : gmap string Value) : string :=
  json_Marshal m +:+ http.newline.

Section Services.
(** The process-wide signing key, set once in [main]. *)
Variable JwtKey : bytes.
(** The reference record and the decoding of a request body into a
    [User]; neither declaration is part of the files at hand. *)
Variable OurUser : User.
Variable decodeUser : bytes -> option User.

Definition HandleLogin (c : Clock) (r : http.Request)
  : go http.Response * Clock :=
  match decodeUser (http.Body r) with
  | None => (Return (http.Error "bad request" http.StatusBadRequest), c)
  | Some req =>
      if negb (String.eqb (Password req) (Password OurUser))
         || negb (String.eqb (Username req) (Username OurUser))
      then
        (Return (http.Error "invalid credentials" http.StatusUnauthorized), c)
      else
        let '(t1, c1) := time_Now c in
        let '(t2, c2) := time_Now c1 in
        let claims : gmap string Value :=
          {[ "sub" := VStr (Username req);
             "iat" := VNum (Unix t1);
             "exp" := VNum (Unix (Add t2 (24 * Hour))) ]} in
        let token := NewWithClaims SigningMethodHS256 claims in
        match SignedString token JwtKey with
        | Panic => (Panic, c2)
        | Return (inr _) =>
            (Return
               (http.Error "server error" http.StatusInternalServerError),
             c2)
        | Return (inl signed) =>
            (Return
               {| http.StatusCode := http.StatusOK;
                  http.ResponseHeader := ∅;
                  http.ResponseBody :=
                    json_Encode
                      {[ "access_token" := VStr signed;
                         "token_type" := VStr "bearer" ]} |},
             c2)
        end
  end.

(** ** The auth service: [jwtAuthMiddleware] *)

Definition ClaimsContextKey : string := "claims".

(** The key function handed to [jwt.Parse]. *)
Definition keyFunc : Keyfunc := fun t =>
  match Method t with
  | None => Panic
  | Some m =>
      match slice_to (Alg m) 2 with
      | Panic => Panic
      | Return p =>
          if negb (String.eqb p "HS")
          then Return (inr [ErrTokenSignatureInvalid])
          else Return (inl JwtKey)
      end
  end.

Definition jwtAuthMiddleware (next : http.Handler) (now : Z)
    (r : http.Request) : go http.Response * list Call :=
  let h := http.Get (http.Header r) "Authorization" in
  if String.eqb h EmptyString then
    (Return
       (http.Error "missing Authorization header" http.StatusUnauthorized),
     [])
  else
    match SplitN h " " 2 with
    | [p0; p1] =>
        if negb (String.eqb (ToLower p0) "bearer") then
          (Return
             (http.Error "invalid Authorization header"
                http.StatusUnauthorized), [])
        else
          let tokenStr := p1 in
          match Parse tokenStr keyFunc now with
          | (Panic, calls) => (Panic, CallParse tokenStr :: calls)
          | (Return (_, Some _), calls) =>
              (Return (http.Error "invalid token" http.StatusUnauthorized),
               CallParse tokenStr :: calls)
          | (Return (None, None), calls) =>
              (Panic, CallParse tokenStr :: calls)
          | (Return (Some token, None), calls) =>
              if negb (Valid token) then
                (Return
                   (http.Error "invalid token" http.StatusUnauthorized),
                 CallParse tokenStr :: calls)
              else
                (next (http.WithValue r ClaimsContextKey (Claims token)),
                 CallParse tokenStr :: calls ++ [CallNext])
          end
    | _ =>
        (Return
           (http.Error "invalid Authorization header"
              http.StatusUnauthorized), [])
    end.

(** The codec operations by the names the specification gives them:
    issuing as [HandleLogin] does and verifying as the middleware
    does. *)
Definition Encode (claims : gmap string Value) : go (string + error) :=
  SignedString (NewWithClaims SigningMethodHS256 claims) JwtKey.

Definition Decode (tokenString : string) (now : Z)
  : go (option Token * option error) * list Call :=
  Parse tokenString keyFunc now.
End Services.

(** [JwtKey = []byte("supersecretkey")] in both [main] functions. *)
Definition mainJwtKey : bytes := "supersecretkey".

(** Modelled from the spec: the request body of POST /login is a JSON
    object with the members username and password; the declaration of
    [User] with its field tags is not part of the files at hand.  A
    member that is absent or null leaves the field empty, a member of
    another type is an error. *)
Definition decodeUserJSON (body : bytes) : option User :=
  match json_Unmarshal body with
  | None => None
  | Some m =>
      let field k :=
        match m !! k with
        | None | Some VNull => Some EmptyString
        | Some (VStr s) => Some s
        | Some _ => None
        end in
      match field "username", field "password" with
      | Some u, Some p => Some {| Username := u; Password := p |}
      | _, _ => None
      end
  end.

(** ** The vocabulary of the specification *)

(** The claim set of the specification: a subject and two times in Unix
    seconds, carried under the claim names [HandleLogin] uses. *)
Record ClaimSet : Type := {
  subject : string;
  issuedAt : Z;
  expiresAt : Z
}.

Definition claimsOf (cs : ClaimSet) : gmap string Value :=
  {[ "sub" := VStr (subject cs);
     "iat" := VNum (issuedAt cs);
     "exp" := VNum (expiresAt cs) ]}.

Definition claimSetOf (m : gmap string Value) : option ClaimSet :=
  match m !! "sub", m !! "iat", m !! "exp" with
  | Some (VStr s), Some (VNum i), Some (VNum e) =>
      Some {| subject := s; issuedAt := i; expiresAt := e |}
  | _, _, _ => None
  end.


(** What [Decode] returned, without the record of its calls. *)
Definition decoded (JwtKey : bytes) (tokenString : string) (now : Z)
  : go (option Token * option error) :=
  (Decode JwtKey tokenString now).1.

(** The token is accepted: no error and a token marked valid. *)
Definition accepts (JwtKey : bytes) (tokenString : string) (now : Z) : bool :=
  match decoded JwtKey tokenString now with
  | Return (Some t, None) => Valid t
  | _ => false
  end.

(** The token is refused with an error that wraps the sentinel. *)
Definition rejects_with (JwtKey : bytes) (tokenString : string) (now : Z)
    (s : Sentinel) : bool :=
  match decoded JwtKey tokenString now with
  | Return (_, Some e) => errors_Is e s
  | _ => false
  end.

(** The algorithm a token string declares in its first segment. *)
Definition declared_alg (tokenString : string) : option string :=
  match Split tokenString "." with
  | p0 :: _ =>
      match DecodeSegment p0 with
      | None => None
      | Some headerBytes =>
          match json_Unmarshal headerBytes with
          | None => None
          | Some header =>
              match header !! "alg" with
              | Some (VStr a) => Some a
              | _ => None
              end
          end
      end
  | [] => None
  end.

(** The name of a symmetric method: it starts with the letters HS. *)
Definition symmetric (alg : string) : bool := String.prefix "HS" alg.

Definition is_verify (c : Call) : bool :=
  match c with
  | CallVerify _ _ _ _ => true
  | _ => false
  end.

(** One bit of a byte inverted; bit 0 is the least significant. *)
Definition flip_bit (c : ascii) (b : nat) : ascii :=
  match c with
  | Ascii b0 b1 b2 b3 b4 b5 b6 b7 =>
      match b with
      | 0%nat => Ascii (negb b0) b1 b2 b3 b4 b5 b6 b7
      | 1%nat => Ascii b0 (negb b1) b2 b3 b4 b5 b6 b7
      | 2%nat => Ascii b0 b1 (negb b2) b3 b4 b5 b6 b7
      | 3%nat => Ascii b0 b1 b2 (negb b3) b4 b5 b6 b7
      | 4%nat => Ascii b0 b1 b2 b3 (negb b4) b5 b6 b7
      | 5%nat => Ascii b0 b1 b2 b3 b4 (negb b5) b6 b7
      | 6%nat => Ascii b0 b1 b2 b3 b4 b5 (negb b6) b7
      | 7%nat => Ascii b0 b1 b2 b3 b4 b5 b6 (negb b7)
      | _ => c
      end
  end.

(** Bit [b] of the byte at index [i] inverted. *)
Fixpoint flip_at (s : string) (i b : nat) : string :=
  match s, i with
  | EmptyString, _ => EmptyString
  | String c s', O => String (flip_bit c b) s'
  | String c s', S i' => String c (flip_at s' i' b)
  end.

Definition is_blank (c : ascii) : bool :=
  let n := N_of_ascii c in (((9 <=? n) && (n <=? 13)) || (n =? 32))%N.

(** The whitespace-separated parts of a text, as the specification
    words the header format (the reading of [strings.Fields]). *)
Fixpoint Fields (s : string) : list string :=
  match s with
  | EmptyString => []
  | String c s' =>
      if is_blank c then Fields s'
      else
        match s' with
        | EmptyString => [String c EmptyString]
        | String d _ =>
            if is_blank d then String c EmptyString :: Fields s'
            else
              match Fields s' with
              | w :: ws => String c w :: ws
              | [] => [String c EmptyString]
              end
        end
  end.

(** A request that carries the given [Authorization] header only. *)
Definition bearerRequest (h : string) : http.Request :=
  {| http.Header := {[ "Authorization" := [h] ]};
     http.Body := EmptyString;
     http.Context := ∅ |}.

(** A login request with the given body. *)
Definition loginRequest (body : bytes) : http.Request :=
  {| http.Header := ∅; http.Body := body; http.Context := ∅ |}.

(** A wall clock that reads [t0] first and then advances by [step]
    nanoseconds between readings. *)
Definition steadyClock (t0 step : Z) : Clock :=
  {| reading := fun i => t0 + Z.of_nat i * step; reads := 0 |}.

(** A handler for the wrapped route: it greets the subject found in the
    request context (the route's own handler is not part of the files
    at hand). *)
Definition greet : http.Handler := fun r =>
  match http.Context r !! ClaimsContextKey with
  | Some claims =>
      match claims !! "sub" with
      | Some (VStr username) =>
          Return {| http.StatusCode := http.StatusOK;
                    http.ResponseHeader := ∅;
                    http.ResponseBody := "hello " +:+ username |}
      | _ => Panic
      end
  | None => Panic
  end.

(** What [HandleLogin] answered: the status written. *)
Definition login_status (res : go http.Response * Clock) : option Z :=
  match res.1 with
  | Return resp => Some (http.StatusCode resp)
  | Panic => None
  end.

(** The access token of a login answer, read back from its body. *)
Definition issued_token (res : go http.Response * Clock) : option string :=
  match res.1 with
  | Return resp =>
      match json_Unmarshal (http.ResponseBody resp) with
      | Some m =>
          match m !! "access_token" with
          | Some (VStr tok) => Some tok
          | _ => None
          end
      | None => None
      end
  | Panic => None
  end.

(** The claim set of a token that [Decode] accepts. *)
Definition decoded_claims (JwtKey : bytes) (tokenString : string) (now : Z)
  : option ClaimSet :=
  match decoded JwtKey tokenString now with
  | Return (Some t, None) => if Valid t then claimSetOf (Claims t) else None
  | _ => None
  end.

Definition encode_fails (JwtKey : bytes) (claims : gmap string Value) : bool :=
  match Encode JwtKey claims with
  | Return (inr _) => true
  | _ => false
  end.

(** The seconds of the fixed 24-hour window. *)
Definition day : Z := 24 * 3600.

(** ** Sample data *)

Definition alice : User := {| Username := "alice"; Password := "correct" |}.

Definition aliceBody : bytes :=
  json_Marshal {[ "username" := VStr "alice"; "password" := VStr "correct" ]}.

Definition aliceClaims : ClaimSet :=
  {| subject := "alice"; issuedAt := 1700000000; expiresAt := 1700086400 |}.

Definition wrongSecret : User := {| Username := "alice"; Password := "wrong" |}.

Definition wrongSecretBody : bytes :=
  json_Marshal {[ "username" := VStr "alice"; "password" := VStr "wrong" ]}.

Definition wrongName : User :=
  {| Username := "mallory"; Password := "correct" |}.

Definition wrongNameBody : bytes :=
  json_Marshal {[ "username" := VStr "mallory"; "password" := VStr "correct" ]}.

(** A token string that declares RS256 and whose second segment is not
    base64url. *)
Definition rs256Malformed : string :=
  EncodeSegment (json_Marshal {[ "alg" := VStr "RS256" ]}) +:+ ".!.AA".


(** The token that the login of the reference user gets when the clock
    reads 1700000000 seconds, segment by segment. *)
Definition aliceHeaderSeg : string := "eyJhbGciOiJIUzI1NiIsInR5cCI6IkpXVCJ9".

Definition aliceClaimsSeg : string :=
  "eyJleHAiOjE3MDAwODY0MDAsImlhdCI6MTcwMDAwMDAwMCwic3ViIjoiYWxpY2UifQ".

Definition aliceSigSeg : string :=
  "H2F67U_7vyuBSp-AH6shdu6lYxjGAP16x-2m8VoqBU4".

Definition aliceToken : string :=
  Join [aliceHeaderSeg; aliceClaimsSeg; aliceSigSeg] ".".

(** The same token as the parser reads it before verification. *)
Definition aliceParsed : Token :=
  {| Raw := aliceToken;
     Method := Some SigningMethodHS256;
     Header := {[ "typ" := VStr "JWT"; "alg" := VStr "HS256" ]};
     Claims := claimsOf aliceClaims;
     Signature := EmptyString;
     Valid := false |}.

(** ** Reading the claims in a handler *)

(** The two lines a handler behind the middleware uses to learn who
    calls (README, "Accessing Claims in Handlers"):
    [claims := r.Context().Value(ClaimsContextKey).(jwt.MapClaims)] and
    [username := claims["sub"].(string)].  Either type assertion
    panics when the value is missing or of another type. *)
Definition contextUsername (r : http.Request) : go string :=
  match http.Context r !! ClaimsContextKey with
  | None => Panic
  | Some claims =>
      match claims !! "sub" with
      | Some (VStr username) => Return username
      | _ => Panic
      end
  end.

(** The three answers the middleware writes itself. *)
Definition middlewareMessages : list string :=
  ["missing Authorization header"; "invalid Authorization header";
   "invalid token"].

(** The token [HandleLogin] signs for a user name and two readings of
    the clock: its claims and the token string. *)
Definition loginClaims (username : string) (t1 t2 : Z) : ClaimSet :=
  {| subject := username; issuedAt := Unix t1;
     expiresAt := Unix (Add t2 (24 * Hour)) |}.

(** A byte of value zero. *)
Definition zeroByte : string := String "000"%char EmptyString.

(** The token string [HandleLogin] signs with the process key. *)
Definition loginToken (JwtKey : bytes) (username : string) (t1 t2 : Z)
  : string :=
  let sstr :=
    SigningString
      (NewWithClaims SigningMethodHS256
         (claimsOf (loginClaims username t1 t2))) in
  sstr +:+ "." +:+ EncodeSegment (hmac_sum SHA256 JwtKey sstr).

(** The submitted credentials are those of the reference record. *)
Definition matching (OurUser : User) (decodeUser : bytes -> option User)
    (r : http.Request) : Prop :=
  exists req,
    decodeUser (http.Body r) = Some req
    /\ Username req = Username OurUser
    /\ Password req = Password OurUser.

(** The clock after two more readings. *)
Definition readTwice (c : Clock) : Clock :=
  {| reading := reading c; reads := S (S (reads c)) |}.


(** The bytes a token string can be made of: the 64 characters of the
    base64url alphabet, the dot between two segments, and the line feed
    and the carriage return that the decoder of a segment skips. *)
Definition tokenByte (c : ascii) : bool :=
  match char_sextet c with
  | Some _ => true
  | None =>
      Ascii.eqb c "."%char || Ascii.eqb c "010"%char || Ascii.eqb c "013"%char
  end.

(** * Properties *)

(** ** Published test vectors *)

(** FIPS 180-4, the message abc. *)
Example sha256_abc :
  hex_of_bytes (sha2 sha256_params "abc")
  = "ba7816bf8f01cfea414140de5dae2223b00361a396177a9cb410ff61f20015ad".
Proof. vm_compute. reflexivity. Qed.

Example sha384_abc :
  hex_of_bytes (sha2 sha384_params "abc")
  = "cb00753f45a35e8bb5a03d699ac65007272c32ab0eded1631a8b605a43ff5bed"
    +:+ "8086072ba1e7cc2358baeca134c825a7".
Proof. vm_compute. reflexivity. Qed.

Example sha512_abc :
  hex_of_bytes (sha2 sha512_params "abc")
  = "ddaf35a193617abacc417349ae20413112e6fa4e89a97ea20a9eeee64b55d39a"
    +:+ "2192992a274fc1a836ba3c23a3feebbd454d4423643ce80e2a9ac94fa54ca49f".
Proof. vm_compute. reflexivity. Qed.

(** RFC 4231, test case 2. *)
Example hmac_sha256_rfc4231 :
  hex_of_bytes (hmac_sum SHA256 "Jefe" "what do ya want for nothing?")
  = "5bdcc146bf60754e6a042426089575c75a003f089d2739839dec58b964ec3843".
Proof. vm_compute. reflexivity. Qed.

(** RFC 4648, section 10, in the URL alphabet without padding. *)
Example base64_rfc4648 :
  map b64_encode ["f"; "fo"; "foo"; "foob"; "fooba"; "foobar"]
  = ["Zg"; "Zm8"; "Zm9v"; "Zm9vYg"; "Zm9vYmE"; "Zm9vYmFy"].
Proof. reflexivity. Qed.

(** Trailing bits that carry no data are ignored when decoding, and
    line breaks are skipped. *)
Example base64_lenient :
  map b64_decode ["Zg"; "Zh"; "Zm8"; "Zm9"; String "Z" (String "010" "g"); "Z"; "Zg=="]
  = [Some "f"; Some "f"; Some "fo"; Some "fo"; Some "f"; None; None].
Proof. reflexivity. Qed.

(** The token of the jwt.io debugger: its signature is the HMAC-SHA256
    of the first two segments under the key shown there. *)
Example jwt_io_signature :
  EncodeSegment
    (hmac_sum SHA256 "your-256-bit-secret"
       ("eyJhbGciOiJIUzI1NiIsInR5cCI6IkpXVCJ9" +:+ "."
        +:+ "eyJzdWIiOiIxMjM0NTY3ODkwIiwibmFtZSI6IkpvaG4gRG9lIiwiaWF0IjoxNTE2MjM5MDIyfQ"))
  = "SflKxwRJSMeKKF2QT4fwpMeJf36POk6yJV_adQssw5c".
Proof. vm_compute. reflexivity. Qed.

Example split_examples :
  Split "a.b.c" "." = ["a"; "b"; "c"]
  /\ Split "" "." = [""]
  /\ SplitN "Bearer a b" " " 2 = ["Bearer"; "a b"]
  /\ SplitN "Bearer" " " 2 = ["Bearer"]
  /\ ToLower "BeArEr" = "bearer".
Proof. repeat split. Qed.

(** ** Base64 *)

Lemma char_sextet_char (x : sextet) : char_sextet (sextet_char x) = Some x.
Proof. destruct x as [[] [] [] [] [] []]; reflexivity. Qed.

Lemma sextet_char_not_skipped (x : sextet) :
  Ascii.eqb (sextet_char x) "010"%char || Ascii.eqb (sextet_char x) "013"%char
  = false.
Proof. destruct x as [[] [] [] [] [] []]; reflexivity. Qed.

Lemma sextet_char_not_dot (x : sextet) : Ascii.eqb (sextet_char x) "."%char = false.
Proof. destruct x as [[] [] [] [] [] []]; reflexivity. Qed.

Lemma string_by_three (P : string -> Prop) :
  P EmptyString ->
  (forall a, P (String a EmptyString)) ->
  (forall a b, P (String a (String b EmptyString))) ->
  (forall a b c r, P r -> P (String a (String b (String c r)))) ->
  forall s, P s.
Proof.
  intros H0 H1 H2 H3.
  assert (H : forall s, P s /\ (forall a, P (String a s))
                        /\ (forall a b, P (String a (String b s)))).
  { induction s as [|c s (IH0 & IH1 & IH2)]; [by repeat split; auto|].
    split; [apply IH1|]. split; [intros a; apply IH2|].
    intros a b. by apply H3. }
  intros s. apply H.
Qed.

Lemma b64_sextets_char (x : sextet) (s : string) :
  b64_sextets (String (sextet_char x) s) =
  match b64_sextets s with None => None | Some l => Some (x :: l) end.
Proof.
  simpl. rewrite sextet_char_not_skipped, char_sextet_char. reflexivity.
Qed.

Lemma b64_decode_encode (src : bytes) : b64_decode (b64_encode src) = Some src.
Proof.
  unfold b64_decode.
  induction src as [|a|a b|a b c r IH] using string_by_three.
  - reflexivity.
  - destruct a as [a0 a1 a2 a3 a4 a5 a6 a7].
    cbn [b64_encode]. rewrite !b64_sextets_char. reflexivity.
  - destruct a as [a0 a1 a2 a3 a4 a5 a6 a7], b as [b0 b1 b2 b3 b4 b5 b6 b7].
    cbn [b64_encode]. rewrite !b64_sextets_char. reflexivity.
  - destruct a as [a0 a1 a2 a3 a4 a5 a6 a7], b as [b0 b1 b2 b3 b4 b5 b6 b7],
      c as [c0 c1 c2 c3 c4 c5 c6 c7].
    cbn [b64_encode]. rewrite !b64_sextets_char.
    destruct (b64_sextets (b64_encode r)) as [l|]; [|discriminate].
    cbn [b64_bytes]. rewrite IH. reflexivity.
Qed.

Lemma Count_b64_encode (src : bytes) : Count "." (b64_encode src) = 0%nat.
Proof.
  induction src as [|a|a b|a b c r IH] using string_by_three.
  - reflexivity.
  - destruct a as [a0 a1 a2 a3 a4 a5 a6 a7].
    cbn [b64_encode Count]. by rewrite !sextet_char_not_dot.
  - destruct a as [a0 a1 a2 a3 a4 a5 a6 a7], b as [b0 b1 b2 b3 b4 b5 b6 b7].
    cbn [b64_encode Count]. by rewrite !sextet_char_not_dot.
  - destruct a as [a0 a1 a2 a3 a4 a5 a6 a7], b as [b0 b1 b2 b3 b4 b5 b6 b7],
      c as [c0 c1 c2 c3 c4 c5 c6 c7].
    cbn [b64_encode Count]. by rewrite !sextet_char_not_dot, IH.
Qed.

(** ** Splitting and joining *)

Lemma app_String (c : ascii) (a b : string) :
  String c a +:+ b = String c (a +:+ b).
Proof. reflexivity. Qed.

Lemma app_Empty (b : string) : EmptyString +:+ b = b.
Proof. reflexivity. Qed.

Lemma str_app_nil_r (a : string) : a +:+ EmptyString = a.
Proof. induction a as [|x a IH]; [done|]. by rewrite app_String, IH. Qed.

Lemma str_app_assoc (a b c : string) : (a +:+ b) +:+ c = a +:+ (b +:+ c).
Proof. induction a as [|x a IH]; [done|]. by rewrite !app_String, IH. Qed.

Lemma str_length_app (a b : string) :
  String.length (a +:+ b) = (String.length a + String.length b)%nat.
Proof. induction a as [|x a IH]; [done|]. rewrite app_String. simpl. by rewrite IH. Qed.

Lemma Count_app (sep : ascii) (a b : string) :
  Count sep (a +:+ b) = (Count sep a + Count sep b)%nat.
Proof.
  induction a as [|x a IH]; [done|].
  rewrite app_String. simpl. rewrite IH. lia.
Qed.

Lemma cut_Some_Count (sep : ascii) (s a b : string) :
  cut sep s = Some (a, b) ->
  s = a +:+ String sep b /\ Count sep a = 0%nat
  /\ Count sep s = S (Count sep b).
Proof.
  revert a. induction s as [|x s IH]; intros a; [done|]. simpl.
  destruct (Ascii.eqb_spec x sep) as [->|Hne].
  - intros [= <- <-]. done.
  - destruct (cut sep s) as [[a' b']|]; [|done].
    intros [= <- <-]. destruct (IH a' eq_refl) as (-> & H1 & H2).
    rewrite app_String. simpl. apply Ascii.eqb_neq in Hne. rewrite Hne.
    by rewrite H1, H2.
Qed.

Lemma cut_app (sep : ascii) (a b : string) :
  Count sep a = 0%nat -> cut sep (a +:+ String sep b) = Some (a, b).
Proof.
  induction a as [|x a IH].
  - intros _. rewrite app_Empty. simpl. by rewrite Ascii.eqb_refl.
  - rewrite app_String. cbn [Count cut].
    destruct (Ascii.eqb x sep); [done|]. intros H. by rewrite (IH H).
Qed.

Lemma Split_three (a b c : string) :
  Count "." a = 0%nat -> Count "." b = 0%nat -> Count "." c = 0%nat ->
  Split (a +:+ "." +:+ b +:+ "." +:+ c) "." = [a; b; c].
Proof.
  intros Ha Hb Hc. unfold Split, SplitN. simpl (_ <? _).
  cbv iota. rewrite !Count_app, Ha, Hb, Hc. simpl (_ + _)%nat.
  change ("." +:+ b +:+ "." +:+ c) with (String "."%char (b +:+ "." +:+ c)).
  cbn [genSplit]. rewrite (cut_app _ _ _ Ha).
  change ("." +:+ c) with (String "."%char c).
  rewrite (cut_app _ _ _ Hb). done.
Qed.

Lemma genSplit_step (sep : ascii) (n : nat) (s : string) :
  genSplit sep (S (S n)) s =
  match cut sep s with
  | None => [s]
  | Some (a, b) => a :: genSplit sep (S n) b
  end.
Proof. reflexivity. Qed.

Lemma Join_cons (e p : string) (ps : list string) (sep : string) :
  Join (e :: p :: ps) sep = e +:+ sep +:+ Join (p :: ps) sep.
Proof. reflexivity. Qed.

(** The pieces of a split string have no separator among them, all pieces
    are asked for, and joining them gives the string back. *)
Lemma genSplit_all (sep : ascii) (s : string) (n : nat) :
  n = S (Count sep s) ->
  Join (genSplit sep n s) (String sep EmptyString) = s
  /\ length (genSplit sep n s) = n
  /\ Forall (fun p => Count sep p = 0%nat) (genSplit sep n s).
Proof.
  revert s. induction n as [|n IH]; intros s Hn; [done|].
  destruct n as [|n].
  - simpl. injection Hn as Hn. repeat split; auto.
  - rewrite genSplit_step. destruct (cut sep s) as [[a b]|] eqn:Hcut.
    + destruct (cut_Some_Count _ _ _ _ Hcut) as (-> & Ha & Hs).
      rewrite Hs in Hn. injection Hn as Hn.
      destruct (IH b (f_equal S Hn)) as (HJ & HL & HF).
      repeat split.
      * destruct (genSplit sep (S n) b) as [|p ps] eqn:E; [done|].
        by rewrite Join_cons, HJ.
      * cbn [length]. by rewrite HL.
      * constructor; done.
    + exfalso. clear IH. revert Hcut Hn.
      induction s as [|x s IHs]; simpl; [done|].
      destruct (Ascii.eqb x sep); [done|].
      destruct (cut sep s) as [[a b]|]; [done|]. simpl. intros _ H.
      apply IHs; [done|]. done.
Qed.

(** ** JSON: decoding what was encoded *)

Lemma unquote_escape_byte (c : ascii) (t : string) :
  unquote (escape_byte c +:+ t) = prepend (String c EmptyString) (unquote t).
Proof. destruct c as [[] [] [] [] [] [] [] []]; reflexivity. Qed.

Lemma unquote_escape (s rest : string) :
  unquote (escape s +:+ String dquote rest) = Some (s, rest).
Proof.
  induction s as [|c s IH].
  - reflexivity.
  - cbn [escape]. rewrite str_app_assoc, unquote_escape_byte, IH. reflexivity.
Qed.

Definition delimited (rest : string) : Prop :=
  exists r, rest = String ","%char r \/ rest = String "}"%char r.

Lemma read_uint_app (u : Decimal.uint) (rest : string) :
  delimited rest ->
  read_uint (NilEmpty.string_of_uint u +:+ rest) = (u, rest).
Proof.
  intros [r [-> | ->]]; induction u as [|u IH|u IH|u IH|u IH|u IH|u IH|u IH|u IH|u IH|u IH];
    try reflexivity;
    cbn [NilEmpty.string_of_uint]; rewrite app_String; cbn [read_uint];
    change (digit_of_char _) with (Some Decimal.D0) ||
    change (digit_of_char _) with (Some Decimal.D1) ||
    change (digit_of_char _) with (Some Decimal.D2) ||
    change (digit_of_char _) with (Some Decimal.D3) ||
    change (digit_of_char _) with (Some Decimal.D4) ||
    change (digit_of_char _) with (Some Decimal.D5) ||
    change (digit_of_char _) with (Some Decimal.D6) ||
    change (digit_of_char _) with (Some Decimal.D7) ||
    change (digit_of_char _) with (Some Decimal.D8) ||
    change (digit_of_char _) with (Some Decimal.D9); cbv beta iota; rewrite IH; reflexivity.
Qed.

Lemma unorm_to_uint (p : positive) : Decimal.unorm (Pos.to_uint p) = Pos.to_uint p.
Proof.
  rewrite <- (DecimalPos.Unsigned.to_of (Pos.to_uint p)).
  rewrite DecimalPos.Unsigned.of_to. reflexivity.
Qed.

Lemma of_uint_to_uint (p : positive) : Z.of_uint (Pos.to_uint p) = Z.pos p.
Proof. exact (DecimalZ.of_to (Z.pos p)). Qed.

Lemma uint_eqb_refl (u : Decimal.uint) : uint_eqb u u = true.
Proof. unfold uint_eqb. destruct (Decimal.uint_eq_dec u u); congruence. Qed.

Lemma uint_eqb_Nil (p : positive) : uint_eqb (Pos.to_uint p) Decimal.Nil = false.
Proof.
  unfold uint_eqb. destruct (Decimal.uint_eq_dec _ _) as [E|]; [|done].
  by destruct (DecimalPos.Unsigned.to_uint_nonnil p).
Qed.

(** The digits of a positive number start with a digit, not with a sign. *)
Lemma string_of_to_uint (p : positive) :
  exists c t, NilEmpty.string_of_uint (Pos.to_uint p) = String c t
    /\ digit_of_char c <> None.
Proof.
  pose proof (DecimalPos.Unsigned.to_uint_nonnil p) as H.
  destruct (Pos.to_uint p); [done|..]; eexists _, _; (split; [reflexivity|done]).
Qed.

Lemma read_int_digits (s : string) (u : Decimal.uint) (rest : string) (c : ascii) (t : string) :
  s = String c t -> digit_of_char c <> None ->
  read_uint s = (u, rest) ->
  uint_eqb u Decimal.Nil = false -> Decimal.unorm u = u ->
  read_int s = Some (Z.of_uint u, rest).
Proof.
  intros -> Hc Hr Hn Hu. unfold read_int.
  assert (Hm : (match String c t with
                | String "-"%char s' => (true, s')
                | _ => (false, String c t)
                end) = (false, String c t)).
  { destruct c as [[] [] [] [] [] [] [] []]; try reflexivity. by destruct Hc. }
  rewrite Hm, Hr, Hn, Hu, uint_eqb_refl. reflexivity.
Qed.

Lemma read_int_json_int (n : Z) (rest : string) :
  delimited rest -> read_int (json_int n +:+ rest) = Some (n, rest).
Proof.
  intros Hd. unfold json_int. destruct n as [|p|p].
  - destruct Hd as [r [-> | ->]]; reflexivity.
  - cbn [Z.to_int NilZero.string_of_int]. unfold NilZero.string_of_uint.
    destruct (string_of_to_uint p) as (c & t & E & Hc).
    destruct (Pos.to_uint p) eqn:Ep; [by destruct (DecimalPos.Unsigned.to_uint_nonnil p)|..];
      rewrite <- Ep in *; rewrite <- (of_uint_to_uint p);
      (eapply read_int_digits;
       [rewrite E, app_String; reflexivity | exact Hc | by apply read_uint_app
       | apply uint_eqb_Nil | apply unorm_to_uint]).
  - cbn [Z.to_int NilZero.string_of_int]. unfold NilZero.string_of_uint.
    assert (E : (match Pos.to_uint p with
                 | Decimal.Nil => "0"
                 | _ => NilEmpty.string_of_uint (Pos.to_uint p)
                 end) = NilEmpty.string_of_uint (Pos.to_uint p)).
    { pose proof (DecimalPos.Unsigned.to_uint_nonnil p). by destruct (Pos.to_uint p). }
    rewrite E, app_String. unfold read_int.
    rewrite (read_uint_app _ _ Hd), uint_eqb_Nil, unorm_to_uint, uint_eqb_refl.
    cbn [negb]. by rewrite of_uint_to_uint.
Qed.

Lemma json_int_head (n : Z) :
  exists c t, json_int n = String c t
    /\ (digit_of_char c <> None \/ c = "-"%char).
Proof.
  unfold json_int. destruct n as [|p|p].
  - eexists _, _. split; [reflexivity|by left].
  - cbn [Z.to_int NilZero.string_of_int]. unfold NilZero.string_of_uint.
    destruct (string_of_to_uint p) as (c & t & E & Hc).
    exists c, t. split; [|by left].
    rewrite <- E. pose proof (DecimalPos.Unsigned.to_uint_nonnil p).
    by destruct (Pos.to_uint p).
  - eexists _, _. split; [reflexivity|by right].
Qed.

Lemma digit_not_space (c : ascii) :
  digit_of_char c <> None \/ c = "-"%char -> is_space c = false.
Proof.
  intros [H | ->]; [|reflexivity].
  destruct c as [[] [] [] [] [] [] [] []]; try reflexivity; by destruct H.
Qed.

Lemma parse_value_number (c : ascii) (t : string) :
  digit_of_char c <> None \/ c = "-"%char ->
  parse_value (String c t) =
  match read_int (String c t) with
  | None => None
  | Some (n, rest) => Some (VNum n, rest)
  end.
Proof.
  intros [H | ->]; [|reflexivity].
  destruct c as [[] [] [] [] [] [] [] []]; try reflexivity; by destruct H.
Qed.

Lemma parse_value_json (v : Value) (rest : string) :
  delimited rest -> parse_value (json_value v +:+ rest) = Some (v, rest).
Proof.
  intros Hd. destruct v as [|[]|n|s]; try reflexivity.
  - destruct (json_int_head n) as (c & t & E & Hc).
    cbn [json_value]. pose proof (read_int_json_int n rest Hd) as Hr.
    rewrite E, app_String in *. by rewrite parse_value_number, Hr.
  - cbn [json_value]. unfold json_string. rewrite app_String, str_app_assoc.
    rewrite app_String, app_Empty. unfold parse_value.
    rewrite Ascii.eqb_refl, unquote_escape. reflexivity.
Qed.

Lemma skip_ws_nonspace (c : ascii) (s : string) :
  is_space c = false -> skip_ws (String c s) = String c s.
Proof. intros H. cbn [skip_ws]. by rewrite H. Qed.

Lemma skip_ws_json_value (v : Value) (x : string) :
  skip_ws (json_value v +:+ x) = json_value v +:+ x.
Proof.
  destruct v as [|[]|n|s]; try reflexivity.
  destruct (json_int_head n) as (c & t & E & Hc). cbn [json_value].
  rewrite E, app_String. apply skip_ws_nonspace. by apply digit_not_space.
Qed.

Lemma unquote_json_string (k rest : string) :
  exists t, json_string k +:+ rest = String dquote t
    /\ unquote t = Some (k, rest).
Proof.
  unfold json_string. eexists. rewrite app_String. split; [reflexivity|].
  rewrite str_app_assoc, app_String, app_Empty. apply unquote_escape.
Qed.

Lemma json_members_cons (k : string) (v : Value) (l : list (string * Value)) :
  json_members ((k, v) :: l) =
  json_string k +:+ ":" +:+ json_value v
    +:+ match l with [] => EmptyString | _ => "," +:+ json_members l end.
Proof.
  destruct l as [|[k' v'] l]; cbn [json_members].
  - by rewrite str_app_nil_r.
  - reflexivity.
Qed.

Lemma json_members_head (k : string) (v : Value) (l : list (string * Value)) :
  exists t, json_members ((k, v) :: l) = String dquote t.
Proof.
  rewrite json_members_cons. unfold json_string. rewrite app_String. by eexists.
Qed.

Lemma parse_members_json (l : list (string * Value)) (fuel : nat) (rest : string) :
  l <> [] -> (length l <= fuel)%nat ->
  parse_members fuel (json_members l +:+ String "}"%char rest) = Some (l, rest).
Proof.
  revert fuel. induction l as [|[k v] l IH]; intros fuel Hl Hf; [done|].
  destruct fuel as [|fuel]; [simpl in Hf; lia|].
  rewrite json_members_cons, !str_app_assoc.
  destruct (unquote_json_string k
    (":" +:+ json_value v +:+
       match l with [] => EmptyString | _ => "," +:+ json_members l end
       +:+ String "}"%char rest)) as (t & -> & Hu).
  cbn [parse_members]. rewrite Ascii.eqb_refl, Hu.
  change (":" +:+ ?x) with (String ":"%char x).
  rewrite skip_ws_nonspace by reflexivity. rewrite skip_ws_json_value.
  destruct l as [|[k' v'] l'].
  - rewrite app_Empty, parse_value_json by (eexists; by right).
    by rewrite skip_ws_nonspace by reflexivity.
  - rewrite str_app_assoc. change ("," +:+ ?x) with (String ","%char x).
    rewrite parse_value_json by (eexists; by left).
    rewrite skip_ws_nonspace by reflexivity.
    destruct (json_members_head k' v' l') as (t' & E).
    assert (Hk : skip_ws (json_members ((k', v') :: l') +:+ String "}"%char rest)
                 = json_members ((k', v') :: l') +:+ String "}"%char rest).
    { rewrite E, app_String. by apply skip_ws_nonspace. }
    rewrite Hk, IH; [done|done|simpl in *; lia].
Qed.

Lemma length_json_members (l : list (string * Value)) :
  (length l <= String.length (json_members l))%nat.
Proof.
  induction l as [|[k v] l IH]; [done|].
  rewrite json_members_cons. unfold json_string.
  rewrite app_String. cbn [String.length length].
  rewrite !str_length_app. destruct l as [|p l]; [simpl; lia|].
  rewrite str_length_app. cbn [length] in *. lia.
Qed.

Lemma object_of_members_to_list (m : gmap string Value) (l : list (string * Value)) :
  l ≡ₚ map_to_list m -> object_of_members l = m.
Proof.
  intros Hp. unfold object_of_members.
  rewrite <- (list_to_map_to_list m). apply list_to_map_proper.
  - rewrite reverse_Permutation, Hp. apply NoDup_fst_map_to_list.
  - by rewrite reverse_Permutation.
Qed.

Lemma json_Unmarshal_Marshal_ws (m : gmap string Value) (ws : string) :
  at_end ws = true -> json_Unmarshal (json_Marshal m +:+ ws) = Some m.
Proof.
  intros Hws. unfold json_Marshal.
  pose proof (merge_sort_Permutation key_le (map_to_list m)) as Hp.
  destruct (merge_sort key_le (map_to_list m)) as [|[k v] l] eqn:E.
  - symmetry in Hp. apply Permutation_nil_r in Hp.
    apply map_to_list_empty_iff in Hp. subst m.
    unfold json_Unmarshal. cbn [json_members]. rewrite app_Empty.
    change ("{" +:+ "}") with (String "{"%char (String "}"%char EmptyString)).
    rewrite !app_String, app_Empty.
    rewrite !skip_ws_nonspace by reflexivity. by rewrite Hws.
  - unfold json_Unmarshal. change ("{" +:+ ?x) with (String "{"%char x).
    rewrite app_String, str_app_assoc.
    rewrite skip_ws_nonspace by reflexivity.
    destruct (json_members_head k v l) as (t & Et).
    change ("}" +:+ ws) with (String "}"%char ws).
    pose proof (parse_members_json ((k, v) :: l)
      (String.length
         (String "{"%char (json_members ((k, v) :: l) +:+ String "}"%char ws)))
      ws) as Hpm.
    rewrite Et, app_String in *.
    rewrite skip_ws_nonspace by reflexivity.
    unfold dquote in *. cbv iota. rewrite Hpm; [|done|].
    + by rewrite Hws, (object_of_members_to_list m).
    + pose proof (length_json_members ((k, v) :: l)) as Hlen.
      rewrite Et in Hlen. cbn [String.length] in *.
      rewrite str_length_app. lia.
Qed.

Lemma json_Unmarshal_Marshal (m : gmap string Value) :
  json_Unmarshal (json_Marshal m) = Some m.
Proof.
  rewrite <- (str_app_nil_r (json_Marshal m)).
  by apply json_Unmarshal_Marshal_ws.
Qed.

(** ** Tokens signed with an HMAC method *)

#[local] Opaque hmac_sum.

Lemma GetSigningMethod_Alg (m : SigningMethod) : GetSigningMethod (Alg m) = Some m.
Proof. destruct m; reflexivity. Qed.

Lemma Alg_symmetric (m : SigningMethod) :
  symmetric (Alg m) = match hmac_hash m with Some _ => true | None => false end.
Proof. destruct m; reflexivity. Qed.

Lemma GetSigningMethod_Some (alg : string) (m : SigningMethod) :
  GetSigningMethod alg = Some m -> alg = Alg m.
Proof.
  unfold GetSigningMethod. intros H. apply find_some in H as [_ H].
  symmetry. by apply String.eqb_eq.
Qed.

Lemma keyFunc_symmetric (key : bytes) (t : Token) (m : SigningMethod) (h : Hash) :
  Method t = Some m -> hmac_hash m = Some h -> keyFunc key t = Return (inl key).
Proof. unfold keyFunc. intros -> H. destruct m; try discriminate; reflexivity. Qed.

Lemma keyFunc_other (key : bytes) (t : Token) (m : SigningMethod) :
  Method t = Some m -> hmac_hash m = None ->
  keyFunc key t = Return (inr [ErrTokenSignatureInvalid]).
Proof. unfold keyFunc. intros -> H. destruct m; try discriminate; reflexivity. Qed.

Lemma ParseUnverified_segments (header claims : gmap string Value)
    (sigseg : string) (m : SigningMethod) :
  header !! "alg" = Some (VStr (Alg m)) ->
  Count "." sigseg = 0%nat ->
  let p0 := EncodeSegment (json_Marshal header) in
  let p1 := EncodeSegment (json_Marshal claims) in
  let tok := p0 +:+ "." +:+ p1 +:+ "." +:+ sigseg in
  ParseUnverified tok =
  (Some {| Raw := tok; Method := Some m; Header := header; Claims := claims;
           Signature := EmptyString; Valid := false |},
   [p0; p1; sigseg], None).
Proof.
  intros Halg Hsig p0 p1 tok. unfold ParseUnverified.
  unfold tok. rewrite Split_three by (done || apply Count_b64_encode).
  unfold p0, p1, DecodeSegment, EncodeSegment.
  rewrite !b64_decode_encode, !json_Unmarshal_Marshal, Halg, GetSigningMethod_Alg.
  reflexivity.
Qed.

Lemma Parse_signed (m : SigningMethod) (h : Hash) (claims : gmap string Value)
    (key : bytes) (now : Z) :
  hmac_hash m = Some h ->
  let t0 := NewWithClaims m claims in
  let sstr := SigningString t0 in
  let sig := hmac_sum h key sstr in
  let tok := sstr +:+ "." +:+ EncodeSegment sig in
  let t := {| Raw := tok; Method := Some m; Header := Header t0;
              Claims := claims; Signature := EmptyString; Valid := false |} in
  let calls := [CallKeyfunc (Alg m); CallVerify m sstr sig key; CallValidate] in
  SignedString t0 key = Return (inl tok)
  /\ Parse tok (keyFunc key) now =
     match Validate claims now with
     | Some e => (Return (Some t, Some (ErrTokenInvalidClaims :: e)), calls)
     | None => (Return (Some (validated t sig), None), calls)
     end.
Proof.
  intros Hh t0 sstr sig tok t calls. split.
  - unfold SignedString, Sign. cbn [Method t0 NewWithClaims]. by rewrite Hh.
  - unfold Parse.
    assert (Htok : tok = EncodeSegment (json_Marshal (Header t0)) +:+ "."
                     +:+ EncodeSegment (json_Marshal claims) +:+ "."
                     +:+ EncodeSegment sig).
    { unfold tok, sstr, SigningString. cbn [Claims t0 NewWithClaims].
      by rewrite !str_app_assoc. }
    rewrite Htok at 1.
    rewrite (ParseUnverified_segments _ _ _ m)
      by (reflexivity || apply Count_b64_encode).
    rewrite <- Htok. cbn [Method].
    unfold DecodeSegment at 1. unfold EncodeSegment at 1.
    rewrite b64_decode_encode.
    rewrite (keyFunc_symmetric key _ m h) by done.
    change (Join _ _) with sstr.
    unfold Verify. rewrite Hh. fold sig. rewrite String.eqb_refl.
    cbn [Claims]. fold t. fold calls. by destruct (Validate claims now).
Qed.

(** ** What the parser returns *)

Lemma SplitN_two (h : string) :
  SplitN h " " 2 =
  match cut " " h with
  | None => [h]
  | Some (a, b) => [a; b]
  end.
Proof.
  unfold SplitN. change (2 <? 0) with false. change (Z.to_nat 2) with 2%nat.
  cbv iota. rewrite genSplit_step. by destruct (cut " " h) as [[a b]|].
Qed.

Lemma Split_length (s : string) :
  length (Split s ".") = S (Count "." s)
  /\ Forall (fun p => Count "." p = 0%nat) (Split s ".")
  /\ Join (Split s ".") "." = s.
Proof.
  unfold Split, SplitN. cbn [Z.ltb Z.compare]. cbv iota.
  destruct (genSplit_all "." s (Count "." s + 1)) as (HJ & HL & HF); [lia|].
  split; [rewrite HL; lia|]. split; [exact HF|exact HJ].
Qed.

Lemma b64_decode_no_dot (s : string) (x : bytes) :
  b64_decode s = Some x -> Count "." s = 0%nat.
Proof.
  unfold b64_decode. destruct (b64_sextets s) as [l|] eqn:E; [|done].
  intros _. revert l E. induction s as [|c s IH]; intros l E; [done|].
  cbn [b64_sextets] in E. cbn [Count].
  destruct (Ascii.eqb c "010"%char || Ascii.eqb c "013"%char) eqn:Hskip.
  - rewrite (IH l E).
    destruct (Ascii.eqb_spec c "."%char) as [->|]; [done|done].
  - destruct (char_sextet c) as [x'|] eqn:Hc; [|done].
    destruct (b64_sextets s) as [l'|]; [|done].
    rewrite (IH l' eq_refl).
    destruct (Ascii.eqb_spec c "."%char) as [->|]; [done|done].
Qed.

(** A parse without error has found three segments, a header and a
    claim set that decode, and a registered method under "alg". *)
Lemma ParseUnverified_ok (tok : string) (t : option Token)
    (parts : list string) :
  ParseUnverified tok = (t, parts, None) ->
  exists p0 p1 p2 hb header cb claims m,
    parts = [p0; p1; p2]
    /\ Split tok "." = [p0; p1; p2]
    /\ DecodeSegment p0 = Some hb /\ json_Unmarshal hb = Some header
    /\ DecodeSegment p1 = Some cb /\ json_Unmarshal cb = Some claims
    /\ header !! "alg" = Some (VStr (Alg m))
    /\ t = Some {| Raw := tok; Method := Some m; Header := header;
                   Claims := claims; Signature := EmptyString;
                   Valid := false |}.
Proof.
  unfold ParseUnverified.
  destruct (Split tok ".") as [|p0 [|p1 [|p2 [|p3 ps]]]] eqn:Hs; try done.
  destruct (DecodeSegment p0) as [hb|] eqn:H0; [|done].
  destruct (json_Unmarshal hb) as [header|] eqn:H1; [|done].
  destruct (DecodeSegment p1) as [cb|] eqn:H2; [|done].
  destruct (json_Unmarshal cb) as [claims|] eqn:H3; [|done].
  destruct (header !! "alg") as [[| |n|method]|] eqn:H4; try done.
  destruct (GetSigningMethod method) as [m|] eqn:H5; [|done].
  intros [= <- <-]. apply GetSigningMethod_Some in H5 as ->.
  by exists p0, p1, p2, hb, header, cb, claims, m.
Qed.

(** The converse: the segments determine the parse. *)
Lemma ParseUnverified_of_parts (tok p0 p1 p2 : string) (hb cb : bytes)
    (header claims : gmap string Value) (m : SigningMethod) :
  Split tok "." = [p0; p1; p2] ->
  DecodeSegment p0 = Some hb -> json_Unmarshal hb = Some header ->
  DecodeSegment p1 = Some cb -> json_Unmarshal cb = Some claims ->
  header !! "alg" = Some (VStr (Alg m)) ->
  ParseUnverified tok =
  (Some {| Raw := tok; Method := Some m; Header := header; Claims := claims;
           Signature := EmptyString; Valid := false |}, [p0; p1; p2], None).
Proof.
  intros Hs H0 H1 H2 H3 H4. unfold ParseUnverified.
  by rewrite Hs, H0, H1, H2, H3, H4, GetSigningMethod_Alg.
Qed.

(** Any other number of segments is refused at once. *)
Lemma ParseUnverified_segments_count (tok : string) :
  Count "." tok <> 2%nat ->
  ParseUnverified tok = (None, Split tok ".", Some [ErrTokenMalformed]).
Proof.
  intros H. unfold ParseUnverified.
  destruct (Split_length tok) as (HL & _ & _).
  destruct (Split tok ".") as [|p0 [|p1 [|p2 [|p3 ps]]]]; try done.
  cbn [length] in HL. lia.
Qed.

#[local] Opaque hmac_sum json_Marshal json_Unmarshal b64_encode b64_decode
  Split SplitN.

(** ** What [Decode] returns *)

Lemma Decode_unparsed (JwtKey : bytes) (tok : string) (now : Z)
    (t : option Token) (parts : list string) (e : error) :
  ParseUnverified tok = (t, parts, Some e) ->
  Decode JwtKey tok now = (Return (t, Some e), []).
Proof. intros H. unfold Decode, Parse. rewrite H. by destruct t. Qed.

Lemma ParseUnverified_error (tok : string) (t : option Token)
    (parts : list string) (e : error) :
  ParseUnverified tok = (t, parts, Some e) ->
  e = [ErrTokenMalformed] \/ e = [ErrTokenUnverifiable].
Proof.
  unfold ParseUnverified. intros H.
  repeat (match type of H with
          | context [match ?x with _ => _ end] => destruct x
          end); try discriminate H; injection H as _ _ <-; auto.
Qed.

(** The verdict on a token of three segments whose header and claims
    decode: first the signature segment is decoded, then the key
    function is asked, then the method verifies, then the claims are
    validated. *)
Lemma Decode_of_parts (JwtKey : bytes) (tok p0 p1 p2 : string) (hb cb : bytes)
    (header claims : gmap string Value) (m : SigningMethod) (now : Z) :
  Split tok "." = [p0; p1; p2] ->
  DecodeSegment p0 = Some hb -> json_Unmarshal hb = Some header ->
  DecodeSegment p1 = Some cb -> json_Unmarshal cb = Some claims ->
  header !! "alg" = Some (VStr (Alg m)) ->
  let t := {| Raw := tok; Method := Some m; Header := header;
              Claims := claims; Signature := EmptyString; Valid := false |} in
  let text := p0 +:+ "." +:+ p1 in
  Decode JwtKey tok now =
  match DecodeSegment p2 with
  | None => (Return (Some t, Some [ErrTokenMalformed]), [])
  | Some sig =>
      match hmac_hash m with
      | None =>
          (Return (Some t,
                   Some [ErrTokenUnverifiable; ErrTokenSignatureInvalid]),
           [CallKeyfunc (Alg m)])
      | Some h =>
          if String.eqb sig (hmac_sum h JwtKey text) then
            match Validate claims now with
            | Some e =>
                (Return (Some t, Some (ErrTokenInvalidClaims :: e)),
                 [CallKeyfunc (Alg m); CallVerify m text sig JwtKey;
                  CallValidate])
            | None =>
                (Return (Some (validated t sig), None),
                 [CallKeyfunc (Alg m); CallVerify m text sig JwtKey;
                  CallValidate])
            end
          else
            (Return (Some t,
                     Some [ErrTokenSignatureInvalid; ErrSignatureInvalid]),
             [CallKeyfunc (Alg m); CallVerify m text sig JwtKey])
      end
  end.
Proof.
  intros Hs H0 H1 H2 H3 H4 t text. unfold Decode, Parse.
  rewrite (ParseUnverified_of_parts tok p0 p1 p2 hb cb header claims m)
    by done.
  fold t. cbn [Method t].
  destruct (DecodeSegment p2) as [sig|]; [|done].
  change (Join [p0; p1] ".") with text.
  destruct (hmac_hash m) as [h|] eqn:Hh.
  - rewrite (keyFunc_symmetric JwtKey t m h) by done.
    unfold Verify. rewrite Hh.
    destruct (String.eqb sig (hmac_sum h JwtKey text)); [|done].
    cbn [Claims t]. by destruct (Validate claims now).
  - by rewrite (keyFunc_other JwtKey t m) by done.
Qed.

(** Every run of [Decode] returns: the key function does not panic on
    a registered method, and a token comes with every nil error. *)
Lemma Decode_returns (JwtKey : bytes) (tok : string) (now : Z) :
  exists t e calls,
    Decode JwtKey tok now = (Return (t, e), calls)
    /\ (e = None -> exists t', t = Some t' /\ Valid t' = true).
Proof.
  destruct (ParseUnverified tok) as [[t parts] [e|]] eqn:Hp.
  - eexists _, _, _. split; [by apply (Decode_unparsed _ _ _ _ parts)|done].
  - destruct (ParseUnverified_ok _ _ _ Hp)
      as (p0 & p1 & p2 & hb & header & cb & claims & m & -> & Hs & H0 & H1
          & H2 & H3 & H4 & ->).
    rewrite (Decode_of_parts JwtKey tok p0 p1 p2 hb cb header claims m now)
      by done.
    destruct (DecodeSegment p2) as [sig|]; [|by eexists _, _, _].
    destruct (hmac_hash m) as [h|]; [|by eexists _, _, _].
    destruct (String.eqb _ _); [|by eexists _, _, _].
    destruct (Validate claims now); eexists _, _, _; (split; [done|]); [done|].
    intros _. by eexists.
Qed.

(** ** The middleware *)

(** The middleware, case by case: the header is cut at its first
    space, and the text after it goes to [Decode] when the text before
    it is the word bearer in any case of letters. *)
Lemma jwtAuthMiddleware_cases (JwtKey : bytes) (next : http.Handler)
    (now : Z) (r : http.Request) :
  let h := http.Get (http.Header r) "Authorization" in
  jwtAuthMiddleware JwtKey next now r =
  if String.eqb h EmptyString then
    (Return (http.Error "missing Authorization header"
               http.StatusUnauthorized), [])
  else
    match cut " " h with
    | None =>
        (Return (http.Error "invalid Authorization header"
                   http.StatusUnauthorized), [])
    | Some (a, b) =>
        if String.eqb (ToLower a) "bearer" then
          match Decode JwtKey b now with
          | (Return (Some t, None), calls) =>
              (next (http.WithValue r ClaimsContextKey (Claims t)),
               CallParse b :: calls ++ [CallNext])
          | (_, calls) =>
              (Return (http.Error "invalid token" http.StatusUnauthorized),
               CallParse b :: calls)
          end
        else
          (Return (http.Error "invalid Authorization header"
                     http.StatusUnauthorized), [])
    end.
Proof.
  intros h. unfold jwtAuthMiddleware. fold h.
  destruct (String.eqb h EmptyString); [done|].
  rewrite SplitN_two. destruct (cut " " h) as [[a b]|]; [|done].
  destruct (String.eqb (ToLower a) "bearer"); [|done].
  cbn [negb]. fold (Decode JwtKey b now).
  destruct (Decode_returns JwtKey b now) as (t & e & calls & -> & Hv).
  destruct e as [e|]; [done|].
  destruct (Hv eq_refl) as (t' & -> & Hvalid). by rewrite Hvalid.
Qed.

(** The calls [Decode] records are those of the parser's own steps. *)
Lemma Decode_calls (JwtKey : bytes) (tok : string) (now : Z) (c : Call) :
  c ∈ (Decode JwtKey tok now).2 ->
  match c with
  | CallKeyfunc alg => declared_alg tok = Some alg
  | CallVerify m text sig key =>
      declared_alg tok = Some (Alg m) /\ symmetric (Alg m) = true
      /\ key = JwtKey
  | CallValidate => True
  | CallParse _ | CallNext => False
  end.
Proof.
  destruct (ParseUnverified tok) as [[t parts] [e|]] eqn:Hp.
  - rewrite (Decode_unparsed _ _ _ _ parts e Hp). cbn [snd].
    intros H. by apply elem_of_nil in H.
  - destruct (ParseUnverified_ok _ _ _ Hp)
      as (p0 & p1 & p2 & hb & header & cb & claims & m & -> & Hs & H0 & H1
          & H2 & H3 & H4 & ->).
    assert (Hd : declared_alg tok = Some (Alg m)).
    { unfold declared_alg. by rewrite Hs, H0, H1, H4. }
    rewrite (Decode_of_parts JwtKey tok p0 p1 p2 hb cb header claims m now)
      by done.
    pose proof (Alg_symmetric m) as Hsym.
    destruct (DecodeSegment p2) as [sig|];
      [|cbn [snd]; intros H; by apply elem_of_nil in H].
    destruct (hmac_hash m) as [h|].
    + destruct (String.eqb _ _); [destruct (Validate claims now)|];
        cbn [snd]; intros H;
        repeat (apply elem_of_cons in H as [->|H]; [done|]);
        by apply elem_of_nil in H.
    + cbn [snd]. intros H. apply elem_of_cons in H as [->|H]; [done|].
      by apply elem_of_nil in H.
Qed.

(** What an accepted token is made of. *)
Lemma accepts_inv (JwtKey : bytes) (tok : string) (now : Z) :
  accepts JwtKey tok now = true ->
  exists p0 p1 p2 hb header cb claims m h,
    Split tok "." = [p0; p1; p2]
    /\ DecodeSegment p0 = Some hb /\ json_Unmarshal hb = Some header
    /\ DecodeSegment p1 = Some cb /\ json_Unmarshal cb = Some claims
    /\ header !! "alg" = Some (VStr (Alg m))
    /\ hmac_hash m = Some h
    /\ DecodeSegment p2 = Some (hmac_sum h JwtKey (p0 +:+ "." +:+ p1))
    /\ Validate claims now = None.
Proof.
  unfold accepts, decoded. intros Hacc.
  destruct (ParseUnverified tok) as [[t parts] [e|]] eqn:Hp.
  { rewrite (Decode_unparsed _ _ _ _ parts e Hp) in Hacc. by destruct t. }
  destruct (ParseUnverified_ok _ _ _ Hp)
    as (p0 & p1 & p2 & hb & header & cb & claims & m & -> & Hs & H0 & H1
        & H2 & H3 & H4 & ->).
  rewrite (Decode_of_parts JwtKey tok p0 p1 p2 hb cb header claims m now)
    in Hacc by done.
  destruct (DecodeSegment p2) as [sig|] eqn:Hsig; [|done].
  destruct (hmac_hash m) as [h|] eqn:Hh; [|done].
  destruct (String.eqb_spec sig (hmac_sum h JwtKey (p0 +:+ "." +:+ p1)))
    as [->|]; [|done].
  destruct (Validate claims now) eqn:Hv; [done|].
  by exists p0, p1, p2, hb, header, cb, claims, m, h.
Qed.

Lemma Split_Join_three (p0 p1 p2 : string) :
  Count "." p0 = 0%nat -> Count "." p1 = 0%nat -> Count "." p2 = 0%nat ->
  Split (Join [p0; p1; p2] ".") "." = [p0; p1; p2].
Proof. intros. by apply Split_three. Qed.

Lemma Count_Join_three (p0 p1 p2 : string) :
  Count "." (Join [p0; p1; p2] ".")
  = (Count "." p0 + Count "." p1 + Count "." p2 + 2)%nat.
Proof.
  cbn [Join]. rewrite !Count_app. change (Count "." ".") with 1%nat. lia.
Qed.

Lemma Unix_Add_day (t : Z) : Unix (Add t (24 * Hour)) = Unix t + day.
Proof.
  unfold Unix, Add, Hour, day, second.
  replace (t + 24 * (3600 * 1000000000)) with (t + 24 * 3600 * 1000000000) by lia.
  apply Z.div_add. lia.
Qed.

Lemma Unix_mono (a b : Z) : a <= b -> Unix a <= Unix b.
Proof. intros H. unfold Unix, second. apply Z.div_le_mono; lia. Qed.



(** ** The claims of the specification *)

Lemma Validate_claimsOf (cs : ClaimSet) (now : Z) :
  now < expiresAt cs * second -> Validate (claimsOf cs) now = None.
Proof.
  intros H. unfold Validate, verifyExpiresAt, verifyNotBefore, parseNumericDate.
  change (claimsOf cs !! "exp") with (Some (VNum (expiresAt cs))).
  change (claimsOf cs !! "nbf") with (@None Value).
  cbv beta iota. destruct (expiresAt cs =? 0); [reflexivity|].
  apply Z.ltb_lt in H. rewrite H. reflexivity.
Qed.

Lemma claimSetOf_claimsOf (cs : ClaimSet) : claimSetOf (claimsOf cs) = Some cs.
Proof. by destruct cs. Qed.

(** *** Sample runs *)

Example alice_login_token :
  issued_token
    (HandleLogin mainJwtKey alice decodeUserJSON
       (steadyClock (1700000000 * second) 1) (loginRequest aliceBody))
  = Some aliceToken.
Proof. vm_compute. reflexivity. Qed.

Example alice_greeted :
  (jwtAuthMiddleware mainJwtKey greet (1700000001 * second)
     (bearerRequest ("Bearer " +:+ aliceToken))).1
  = Return {| http.StatusCode := http.StatusOK;
              http.ResponseHeader := ∅;
              http.ResponseBody := "hello alice" |}.
Proof. vm_compute. reflexivity. Qed.

(** *** The algorithm check (C1) *)

(** The claim C1 fails in the error it names: this token declares RS256
    and is refused, but as malformed (its second segment is not
    base64url), before the key function has seen the algorithm. *)
Lemma asymmetric_token_refused_as_malformed :
  declared_alg rs256Malformed = Some "RS256"
  /\ symmetric "RS256" = false
  /\ Decode mainJwtKey rs256Malformed (1700000001 * second)
     = (Return
          (Some {| Raw := rs256Malformed; Method := None;
                   Header := {[ "alg" := VStr "RS256" ]}; Claims := ∅;
                   Signature := EmptyString; Valid := false |},
           Some [ErrTokenMalformed]), [])
  /\ rejects_with mainJwtKey rs256Malformed (1700000001 * second)
       ErrTokenUnverifiable = false
  /\ rejects_with mainJwtKey rs256Malformed (1700000001 * second)
       ErrTokenSignatureInvalid = false.
Proof. repeat split; vm_compute; reflexivity. Qed.

(** C1, amended. For every token string the key function looks at the
    algorithm of the header before it returns the key: the method
    verifies a signature only for a name that starts with HS, and with
    the process key.  A token whose header declares any other algorithm
    is never accepted and its signature is never verified.  The error
    is the one of the key function, [ErrTokenSignatureInvalid] wrapped
    in [ErrTokenUnverifiable], when the token parses and its signature
    segment decodes; otherwise the parser has refused the token
    before. *)
Theorem algorithm_checked_before_key (JwtKey : bytes) (tok : string)
    (now : Z) :
  (forall m text sig key,
      CallVerify m text sig key ∈ (Decode JwtKey tok now).2 ->
      symmetric (Alg m) = true /\ declared_alg tok = Some (Alg m)
      /\ key = JwtKey)
  /\ (forall t m,
        Method t = Some m -> symmetric (Alg m) = false ->
        keyFunc JwtKey t = Return (inr [ErrTokenSignatureInvalid]))
  /\ (forall alg,
        declared_alg tok = Some alg -> symmetric alg = false ->
        accepts JwtKey tok now = false
        /\ (exists t e,
              decoded JwtKey tok now = Return (t, Some e)
              /\ (e = [ErrTokenMalformed] \/ e = [ErrTokenUnverifiable]
                  \/ e = [ErrTokenUnverifiable; ErrTokenSignatureInvalid]))
        /\ forallb (fun c => negb (is_verify c)) (Decode JwtKey tok now).2
           = true
        /\ (forall key', Decode key' tok now = Decode JwtKey tok now)
        /\ forall t p0 p1 p2 sig,
             ParseUnverified tok = (Some t, [p0; p1; p2], None) ->
             DecodeSegment p2 = Some sig ->
             Decode JwtKey tok now
             = (Return (Some t, Some [ErrTokenUnverifiable;
                                      ErrTokenSignatureInvalid]),
                [CallKeyfunc alg])).
Proof.
  split; [|split].
  - intros m text sig key Hin. apply Decode_calls in Hin. tauto.
  - intros t m Hm Hsym. apply (keyFunc_other JwtKey t m Hm).
    rewrite Alg_symmetric in Hsym. by destruct (hmac_hash m).
  - intros alg Hd Hsym.
    destruct (ParseUnverified tok) as [[t parts] [e|]] eqn:Hp.
    + unfold accepts, decoded.
      rewrite (Decode_unparsed _ _ _ _ parts e Hp). cbn [fst snd].
      repeat split;
        [by destruct t
        |eexists _, _; split; [done|];
         destruct (ParseUnverified_error _ _ _ _ Hp); auto | |].
      * intros key'. by rewrite (Decode_unparsed _ _ _ _ parts e Hp).
      * intros t' p0 p1 p2 sig [=].
    + destruct (ParseUnverified_ok _ _ _ Hp)
        as (p0 & p1 & p2 & hb & header & cb & claims & m & -> & Hs & H0 & H1
            & H2 & H3 & H4 & ->).
      assert (alg = Alg m) as ->.
      { unfold declared_alg in Hd. rewrite Hs, H0, H1, H4 in Hd. congruence. }
      rewrite Alg_symmetric in Hsym.
      destruct (hmac_hash m) as [h|] eqn:Hh; [done|].
      assert (HD : forall key,
                Decode key tok now =
                match DecodeSegment p2 with
                | None =>
                    (Return
                       (Some {| Raw := tok; Method := Some m;
                                Header := header; Claims := claims;
                                Signature := EmptyString; Valid := false |},
                        Some [ErrTokenMalformed]), [])
                | Some _ =>
                    (Return
                       (Some {| Raw := tok; Method := Some m;
                                Header := header; Claims := claims;
                                Signature := EmptyString; Valid := false |},
                        Some [ErrTokenUnverifiable; ErrTokenSignatureInvalid]),
                     [CallKeyfunc (Alg m)])
                end).
      { intros key.
        rewrite (Decode_of_parts key tok p0 p1 p2 hb cb header claims m now)
          by done.
        by rewrite Hh. }
      unfold accepts, decoded. rewrite (HD JwtKey).
      destruct (DecodeSegment p2) as [sig|] eqn:Hsig; cbn [fst snd];
        (repeat split;
           [eexists _, _; split; [done|auto]
           |by intros key'; rewrite HD, ?Hsig|]).
      * intros t' q0 q1 q2 sig' [= <- <- <- <-] _. done.
      * intros t' q0 q1 q2 sig' [= <- <- <- <-]. by rewrite Hsig.
Qed.

(** *** Login (C2, C4, C9) *)

(** The claim C2 fails when a second begins between the two readings
    of the clock: the login of the reference user at 1700000000.999999999
    issues a token whose two times are 86401 seconds apart. *)
Lemma login_window_one_second_longer :
  match
    issued_token
      (HandleLogin mainJwtKey alice decodeUserJSON
         (steadyClock (1700000000 * second + 999999999) 1)
         (loginRequest aliceBody))
  with
  | Some tok =>
      option_map (fun cs => (subject cs, expiresAt cs - issuedAt cs))
        (decoded_claims mainJwtKey tok (1700000002 * second))
  | None => None
  end = Some ("alice", 86401).
Proof. vm_compute. reflexivity. Qed.

(** C2, amended. A login with the credentials of the reference record
    is answered 200 with a signed token; decoding it before its expiry
    yields the submitted identifier as subject, an issue time that is
    the first reading of the clock and an expiry that is the second
    reading plus 24 hours, both in whole seconds.  The two times are
    24 hours apart plus the seconds that began between the two
    readings: at least 24 hours when time does not run backwards, and
    exactly 24 hours when both readings fall in one second. *)
Theorem login_issues_token (JwtKey : bytes) (OurUser : User)
    (decodeUser : bytes -> option User) (c : Clock) (r : http.Request)
    (req : User) (now : Z) :
  decodeUser (http.Body r) = Some req ->
  Username req = Username OurUser ->
  Password req = Password OurUser ->
  let t1 := reading c (reads c) in
  let t2 := reading c (S (reads c)) in
  let cs :=
    {| subject := Username req; issuedAt := Unix t1;
       expiresAt := Unix t2 + day |} in
  now < expiresAt cs * second ->
  exists (tok : string) (t : Token) (calls : list Call),
    (HandleLogin JwtKey OurUser decodeUser c r).1
    = Return {| http.StatusCode := http.StatusOK;
                http.ResponseHeader := ∅;
                http.ResponseBody :=
                  json_Encode {[ "access_token" := VStr tok;
                                 "token_type" := VStr "bearer" ]} |}
    /\ issued_token (HandleLogin JwtKey OurUser decodeUser c r) = Some tok
    /\ Decode JwtKey tok now = (Return (Some t, None), calls)
    /\ Valid t = true
    /\ claimSetOf (Claims t) = Some cs
    /\ decoded_claims JwtKey tok now = Some cs
    /\ expiresAt cs - issuedAt cs = day + (Unix t2 - Unix t1)
    /\ (monotone c -> day <= expiresAt cs - issuedAt cs)
    /\ (Unix t1 = Unix t2 -> expiresAt cs - issuedAt cs = day).
Proof.
  intros Hd Hu Hp t1 t2 cs Hnow.
  destruct (Parse_signed SigningMethodHS256 SHA256 (claimsOf cs) JwtKey now eq_refl)
    as [Hs Hparse].
  rewrite (Validate_claimsOf cs now Hnow) in Hparse.
  set (sstr := SigningString (NewWithClaims SigningMethodHS256 (claimsOf cs)))
    in *.
  set (tok := sstr +:+ "." +:+ EncodeSegment (hmac_sum SHA256 JwtKey sstr))
    in *.
  assert (Hres : (HandleLogin JwtKey OurUser decodeUser c r).1
    = Return {| http.StatusCode := http.StatusOK;
                http.ResponseHeader := ∅;
                http.ResponseBody :=
                  json_Encode {[ "access_token" := VStr tok;
                                 "token_type" := VStr "bearer" ]} |}).
  { unfold HandleLogin. rewrite Hd, Hu, Hp, !String.eqb_refl.
    cbn [negb orb time_Now reading reads]. cbv zeta.
    rewrite Unix_Add_day. fold t1 t2.
    change {[ "sub" := VStr (Username OurUser); "iat" := VNum (Unix t1);
              "exp" := VNum (Unix t2 + day) ]}
      with (claimsOf {| subject := Username OurUser; issuedAt := Unix t1;
                        expiresAt := Unix t2 + day |}).
    rewrite <- Hu. fold cs. rewrite Hs. reflexivity. }
  eexists _, _, _. split; [exact Hres|].
  split.
  { unfold issued_token. rewrite Hres. cbn [http.ResponseBody].
    unfold json_Encode. rewrite json_Unmarshal_Marshal_ws by reflexivity.
    reflexivity. }
  split; [exact Hparse|].
  split; [reflexivity|].
  split; [apply claimSetOf_claimsOf|].
  split.
  { unfold decoded_claims, decoded, Decode. rewrite Hparse.
    cbn [fst validated Valid Claims]. apply claimSetOf_claimsOf. }
  cbn [expiresAt issuedAt cs].
  split; [lia|]. split; [|lia].
  intros Hm. pose proof (Unix_mono t1 t2 (Hm _ _ (Nat.le_succ_diag_r _))). lia.
Qed.

Lemma login_issues_token_witness :
  decodeUserJSON (http.Body (loginRequest aliceBody)) = Some alice
  /\ Username alice = Username alice
  /\ Password alice = Password alice
  /\ 1700000001 * second < 1700086400 * second
  /\ exists (tok : string) (t : Token) (calls : list Call),
       (HandleLogin mainJwtKey alice decodeUserJSON
          (steadyClock (1700000000 * second) 1) (loginRequest aliceBody)).1
       = Return {| http.StatusCode := http.StatusOK;
                   http.ResponseHeader := ∅;
                   http.ResponseBody :=
                     json_Encode {[ "access_token" := VStr tok;
                                    "token_type" := VStr "bearer" ]} |}
       /\ issued_token
            (HandleLogin mainJwtKey alice decodeUserJSON
               (steadyClock (1700000000 * second) 1) (loginRequest aliceBody))
          = Some tok
       /\ Decode mainJwtKey tok (1700000001 * second)
          = (Return (Some t, None), calls)
       /\ Valid t = true
       /\ claimSetOf (Claims t) = Some aliceClaims
       /\ decoded_claims mainJwtKey tok (1700000001 * second)
          = Some aliceClaims
       /\ expiresAt aliceClaims - issuedAt aliceClaims = day + (1700000000 - 1700000000)
       /\ (monotone (steadyClock (1700000000 * second) 1) ->
           day <= expiresAt aliceClaims - issuedAt aliceClaims)
       /\ (1700000000 = 1700000000 ->
           expiresAt aliceClaims - issuedAt aliceClaims = day).
Proof.
  assert (Hd : decodeUserJSON (http.Body (loginRequest aliceBody)) = Some alice)
    by (vm_compute; reflexivity).
  assert (Hnow : 1700000001 * second < 1700086400 * second)
    by (vm_compute; reflexivity).
  split; [exact Hd|]. split; [reflexivity|]. split; [reflexivity|].
  split; [exact Hnow|].
  exact (login_issues_token mainJwtKey alice decodeUserJSON
           (steadyClock (1700000000 * second) 1) (loginRequest aliceBody)
           alice (1700000001 * second) Hd eq_refl eq_refl Hnow).
Defined.

(** C4. Every login whose credentials differ from the reference record,
    in the identifier, in the secret or in both, gets the same answer:
    status 401 with the body "invalid credentials", whatever the clock
    reads, and the handler does not read the clock. *)
Theorem login_mismatch_uniform (JwtKey : bytes) (OurUser : User)
    (decodeUser : bytes -> option User) (c1 c2 : Clock)
    (r1 r2 : http.Request) (u1 u2 : User) :
  decodeUser (http.Body r1) = Some u1 ->
  decodeUser (http.Body r2) = Some u2 ->
  Username u1 <> Username OurUser \/ Password u1 <> Password OurUser ->
  Username u2 <> Username OurUser \/ Password u2 <> Password OurUser ->
  (HandleLogin JwtKey OurUser decodeUser c1 r1).1
  = (HandleLogin JwtKey OurUser decodeUser c2 r2).1
  /\ HandleLogin JwtKey OurUser decodeUser c1 r1
     = (Return (http.Error "invalid credentials" http.StatusUnauthorized), c1)
  /\ login_status (HandleLogin JwtKey OurUser decodeUser c1 r1) = Some 401.
Proof.
  intros H1 H2 M1 M2.
  assert (E : forall c r u, decodeUser (http.Body r) = Some u ->
            Username u <> Username OurUser \/ Password u <> Password OurUser ->
            HandleLogin JwtKey OurUser decodeUser c r
            = (Return (http.Error "invalid credentials" http.StatusUnauthorized), c)).
  { intros c r u Hd Hm. unfold HandleLogin. rewrite Hd.
    destruct (String.eqb_spec (Password u) (Password OurUser)) as [Ep|Ep];
      destruct (String.eqb_spec (Username u) (Username OurUser)) as [Eu|Eu];
      try reflexivity.
    exfalso. destruct Hm; congruence. }
  rewrite (E c1 r1 u1 H1 M1), (E c2 r2 u2 H2 M2). repeat split.
Qed.

Lemma login_mismatch_uniform_witness :
  decodeUserJSON (http.Body (loginRequest wrongSecretBody)) = Some wrongSecret
  /\ decodeUserJSON (http.Body (loginRequest wrongNameBody)) = Some wrongName
  /\ (Username wrongSecret <> Username alice
      \/ Password wrongSecret <> Password alice)
  /\ (Username wrongName <> Username alice
      \/ Password wrongName <> Password alice)
  /\ (HandleLogin mainJwtKey alice decodeUserJSON (steadyClock 0 1)
        (loginRequest wrongSecretBody)).1
     = (HandleLogin mainJwtKey alice decodeUserJSON (steadyClock 5 1)
          (loginRequest wrongNameBody)).1
  /\ HandleLogin mainJwtKey alice decodeUserJSON (steadyClock 0 1)
       (loginRequest wrongSecretBody)
     = (Return (http.Error "invalid credentials" http.StatusUnauthorized),
        steadyClock 0 1)
  /\ login_status
       (HandleLogin mainJwtKey alice decodeUserJSON (steadyClock 0 1)
          (loginRequest wrongSecretBody)) = Some 401.
Proof.
  assert (H1 : decodeUserJSON (http.Body (loginRequest wrongSecretBody))
               = Some wrongSecret) by (vm_compute; reflexivity).
  assert (H2 : decodeUserJSON (http.Body (loginRequest wrongNameBody))
               = Some wrongName) by (vm_compute; reflexivity).
  assert (M1 : Username wrongSecret <> Username alice
               \/ Password wrongSecret <> Password alice)
    by (right; discriminate).
  assert (M2 : Username wrongName <> Username alice
               \/ Password wrongName <> Password alice)
    by (left; discriminate).
  split; [exact H1|]. split; [exact H2|]. split; [exact M1|].
  split; [exact M2|].
  exact (login_mismatch_uniform mainJwtKey alice decodeUserJSON
           (steadyClock 0 1) (steadyClock 5 1) (loginRequest wrongSecretBody)
           (loginRequest wrongNameBody) wrongSecret wrongName H1 H2 M1 M2).
Defined.

(** The claim C9 fails for the empty key: encoding the claim set gives a
    signed token, and a login under the empty key is answered 200. *)
Lemma empty_key_still_signs :
  encode_fails EmptyString (claimsOf aliceClaims) = false
  /\ login_status
       (HandleLogin EmptyString alice decodeUserJSON
          (steadyClock (1700000000 * second) 1) (loginRequest aliceBody))
     = Some http.StatusOK.
Proof. split; vm_compute; reflexivity. Qed.

(** C9, amended. Encoding does not look at the length of the key: for
    every key, the empty one included, and every claim set it returns a
    signed token and no error; the login handler answers 400, 401 or
    200, its answer 500 being bound to an encoding error. *)
Theorem encode_total (JwtKey : bytes) (claims : gmap string Value)
    (OurUser : User) (decodeUser : bytes -> option User) (c : Clock)
    (r : http.Request) :
  (exists tok, Encode JwtKey claims = Return (inl tok))
  /\ encode_fails JwtKey claims = false
  /\ (login_status (HandleLogin JwtKey OurUser decodeUser c r)
        = Some http.StatusBadRequest
      \/ login_status (HandleLogin JwtKey OurUser decodeUser c r)
           = Some http.StatusUnauthorized
      \/ login_status (HandleLogin JwtKey OurUser decodeUser c r)
           = Some http.StatusOK).
Proof.
  assert (He : forall cl, exists tok, Encode JwtKey cl = Return (inl tok)).
  { intros cl.
    destruct (Parse_signed SigningMethodHS256 SHA256 cl JwtKey 0 eq_refl)
      as [Hs _].
    eexists. exact Hs. }
  split; [apply He|]. split.
  - unfold encode_fails. destruct (He claims) as [tok ->]. reflexivity.
  - unfold login_status, HandleLogin.
    destruct (decodeUser (http.Body r)) as [req|]; [|by left].
    destruct (_ || _); [by right; left|].
    cbv zeta. cbn [time_Now]. cbv beta iota.
    match goal with
    | |- context [SignedString (NewWithClaims SigningMethodHS256 ?cl) JwtKey] =>
        destruct (He cl) as [tok Htok]; unfold Encode in Htok; rewrite Htok
    end.
    by right; right.
Qed.

(** *** The codec (C3, C5, C6, C10) *)



(** The claim C5 fails for a flip in the bits of the last character
    that the decoder ignores: the token issued to the reference user at
    1700000000 has a signature segment of 43 characters that ends in
    4; with bit 0 of that character flipped (the character 5) the
    segment decodes to the same signature, and the token is accepted as
    before.  A flip that leaves the alphabet, as bit 6 of the first
    character does, is refused as malformed. *)
Lemma trailing_bit_flip_accepted :
  Split aliceToken "." = [aliceHeaderSeg; aliceClaimsSeg; aliceSigSeg]
  /\ String.length aliceSigSeg = 43%nat
  /\ flip_at aliceSigSeg 42 0
     = "H2F67U_7vyuBSp-AH6shdu6lYxjGAP16x-2m8VoqBU5"
  /\ accepts mainJwtKey aliceToken (1700000001 * second) = true
  /\ accepts mainJwtKey
       (Join [aliceHeaderSeg; aliceClaimsSeg; flip_at aliceSigSeg 42 0] ".")
       (1700000001 * second) = true
  /\ rejects_with mainJwtKey
       (Join [aliceHeaderSeg; aliceClaimsSeg; flip_at aliceSigSeg 42 0] ".")
       (1700000001 * second) ErrTokenSignatureInvalid = false
  /\ rejects_with mainJwtKey
       (Join [aliceHeaderSeg; aliceClaimsSeg; flip_at aliceSigSeg 0 6] ".")
       (1700000001 * second) ErrTokenSignatureInvalid = false
  /\ rejects_with mainJwtKey
       (Join [aliceHeaderSeg; aliceClaimsSeg; flip_at aliceSigSeg 0 6] ".")
       (1700000001 * second) ErrTokenMalformed = true.
Proof. repeat split; vm_compute; reflexivity. Qed.

(** C5, amended. For every accepted token and every flip of one bit in
    its signature segment, the altered token is refused with
    [ErrTokenSignatureInvalid] when the altered segment still decodes
    and decodes to other bytes, and refused as malformed when it no
    longer decodes (the flip made a character outside the alphabet, a
    dot among them); when the altered segment decodes to the same
    bytes, the flip having touched only bits that the decoder ignores,
    the token is accepted as before. *)
Theorem flipped_signature_bit (JwtKey : bytes) (now : Z)
    (tok p0 p1 p2 : string) (i b : nat) :
  accepts JwtKey tok now = true ->
  Split tok "." = [p0; p1; p2] ->
  (i < String.length p2)%nat -> (b < 8)%nat ->
  let tok' := Join [p0; p1; flip_at p2 i b] "." in
  match DecodeSegment (flip_at p2 i b) with
  | None =>
      rejects_with JwtKey tok' now ErrTokenMalformed = true
      /\ accepts JwtKey tok' now = false
  | Some sig' =>
      if bool_decide (DecodeSegment p2 = Some sig') then
        accepts JwtKey tok' now = true
      else
        rejects_with JwtKey tok' now ErrTokenSignatureInvalid = true
        /\ accepts JwtKey tok' now = false
  end.
Proof.
  intros Hacc Hs _ _ tok'. set (p2' := flip_at p2 i b) in *.
  destruct (accepts_inv _ _ _ Hacc)
    as (q0 & q1 & q2 & hb & header & cb & claims & m & h & Hs' & H0 & H1 & H2
        & H3 & H4 & Hh & Hsig & Hv).
  rewrite Hs in Hs'. injection Hs' as <- <- <-.
  destruct (Split_length tok) as (_ & HF & _). rewrite Hs in HF.
  apply Forall_cons in HF as [Hc0 HF]. apply Forall_cons in HF as [Hc1 _].
  destruct (DecodeSegment p2') as [sig'|] eqn:Hsig'.
  - pose proof (b64_decode_no_dot _ _ Hsig') as Hc2.
    pose proof (Decode_of_parts JwtKey tok' p0 p1 p2' hb cb header claims m
                  now (Split_Join_three _ _ _ Hc0 Hc1 Hc2) H0 H1 H2 H3 H4)
      as HD.
    cbv zeta in HD. rewrite Hsig', Hh in HD. unfold accepts, rejects_with, decoded.
    rewrite HD, Hsig. case_bool_decide as Heq.
    + injection Heq as <-. rewrite String.eqb_refl, Hv. reflexivity.
    + destruct (String.eqb_spec sig' (hmac_sum h JwtKey (p0 +:+ "." +:+ p1)))
        as [->|_]; [done|]. split; reflexivity.
  - unfold accepts, rejects_with, decoded.
    destruct (Nat.eq_dec (Count "." p2') 0%nat) as [Hc2|Hc2].
    + pose proof (Decode_of_parts JwtKey tok' p0 p1 p2' hb cb header claims m
                    now (Split_Join_three _ _ _ Hc0 Hc1 Hc2) H0 H1 H2 H3 H4)
        as HD.
      cbv zeta in HD. rewrite Hsig' in HD. rewrite HD. split; reflexivity.
    + rewrite (Decode_unparsed JwtKey tok' now None (Split tok' ".")
                 [ErrTokenMalformed]).
      * split; reflexivity.
      * apply ParseUnverified_segments_count. unfold tok'.
        rewrite Count_Join_three, Hc0, Hc1. lia.
Qed.

Lemma flipped_signature_bit_witness :
  accepts mainJwtKey aliceToken (1700000001 * second) = true
  /\ Split aliceToken "." = [aliceHeaderSeg; aliceClaimsSeg; aliceSigSeg]
  /\ (0 < String.length aliceSigSeg)%nat
  /\ (0 < 8)%nat
  /\ match DecodeSegment (flip_at aliceSigSeg 0 0) with
     | None =>
         rejects_with mainJwtKey
           (Join [aliceHeaderSeg; aliceClaimsSeg; flip_at aliceSigSeg 0 0] ".")
           (1700000001 * second) ErrTokenMalformed = true
         /\ accepts mainJwtKey
              (Join [aliceHeaderSeg; aliceClaimsSeg; flip_at aliceSigSeg 0 0] ".")
              (1700000001 * second) = false
     | Some sig' =>
         if bool_decide (DecodeSegment aliceSigSeg = Some sig') then
           accepts mainJwtKey
             (Join [aliceHeaderSeg; aliceClaimsSeg; flip_at aliceSigSeg 0 0] ".")
             (1700000001 * second) = true
         else
           rejects_with mainJwtKey
             (Join [aliceHeaderSeg; aliceClaimsSeg; flip_at aliceSigSeg 0 0] ".")
             (1700000001 * second) ErrTokenSignatureInvalid = true
           /\ accepts mainJwtKey
                (Join [aliceHeaderSeg; aliceClaimsSeg; flip_at aliceSigSeg 0 0]
                   ".")
                (1700000001 * second) = false
     end.
Proof.
  assert (Ha : accepts mainJwtKey aliceToken (1700000001 * second) = true)
    by (vm_compute; reflexivity).
  assert (Hs : Split aliceToken "."
               = [aliceHeaderSeg; aliceClaimsSeg; aliceSigSeg])
    by (vm_compute; reflexivity).
  assert (Hi : (0 < String.length aliceSigSeg)%nat) by (simpl; lia).
  assert (Hb : (0 < 8)%nat) by lia.
  split; [exact Ha|]. split; [exact Hs|]. split; [exact Hi|].
  split; [exact Hb|].
  exact (flipped_signature_bit mainJwtKey (1700000001 * second) aliceToken
           aliceHeaderSeg aliceClaimsSeg aliceSigSeg 0 0 Ha Hs Hi Hb).
Defined.






(** *** The middleware (C7, C8) *)

(** The claim C7 fails for a header of three parts: the header
    "Bearer a b" does not split into exactly two whitespace-separated
    parts, and yet the middleware hands "a b" to the decoder (which
    refuses it; the status is 401 all the same). *)
Lemma three_part_header_is_decoded :
  length (Fields "Bearer a b") = 3%nat
  /\ (jwtAuthMiddleware mainJwtKey greet (1700000001 * second)
        (bearerRequest "Bearer a b")).2
     = [CallParse "a b"]
  /\ (jwtAuthMiddleware mainJwtKey greet (1700000001 * second)
        (bearerRequest "Bearer a b")).1
     = Return (http.Error "invalid token" http.StatusUnauthorized).
Proof. repeat split; vm_compute; reflexivity. Qed.

(** C7, amended. A request without [Authorization] header (or with an
    empty one), with a header that has no space, or with a header whose
    text before the first space is not the word bearer in any case of
    letters, is rejected with 401 and no token is decoded.  Every other
    header is cut at its first space only, and all the text after that
    space goes to the decoder, further spaces included. *)
Theorem header_format_checked (JwtKey : bytes) (next : http.Handler)
    (now : Z) (r : http.Request) :
  let h := http.Get (http.Header r) "Authorization" in
  (h = EmptyString \/ cut " " h = None
   \/ (exists a b, cut " " h = Some (a, b) /\ ToLower a <> "bearer") ->
   exists msg,
     jwtAuthMiddleware JwtKey next now r
     = (Return (http.Error msg http.StatusUnauthorized), []))
  /\ (forall a b,
        h <> EmptyString -> cut " " h = Some (a, b) ->
        ToLower a = "bearer" ->
        exists res calls,
          jwtAuthMiddleware JwtKey next now r = (res, CallParse b :: calls)).
Proof.
  intros h. rewrite jwtAuthMiddleware_cases. fold h. split.
  - intros [-> | [Hc | (a & b & Hc & Hb)]].
    + by eexists.
    + destruct (String.eqb h EmptyString); [by eexists|].
      rewrite Hc. by eexists.
    + destruct (String.eqb h EmptyString); [by eexists|].
      rewrite Hc. apply String.eqb_neq in Hb. rewrite Hb. by eexists.
  - intros a b Hh Hc Hb. apply String.eqb_neq in Hh.
    rewrite Hh, Hc, Hb, String.eqb_refl.
    destruct (Decode JwtKey b now) as [[[[t|] [e|]]|] calls];
      by eexists _, _.
Qed.

(** C8. Whatever makes [Decode] fail on the token of a well-formed
    bearer header (a refused algorithm, a wrong signature, segments or
    claims that do not decode, an expired token), the middleware gives
    the one answer 401 with the body "invalid token" and does not call
    the wrapped handler. *)
Theorem codec_failures_collapse (JwtKey : bytes) (next : http.Handler)
    (now : Z) (r : http.Request) (p0 tokenStr : string) (t : option Token)
    (e : error) :
  SplitN (http.Get (http.Header r) "Authorization") " " 2 = [p0; tokenStr] ->
  ToLower p0 = "bearer" ->
  decoded JwtKey tokenStr now = Return (t, Some e) ->
  jwtAuthMiddleware JwtKey next now r
  = (Return (http.Error "invalid token" http.StatusUnauthorized),
     CallParse tokenStr :: (Decode JwtKey tokenStr now).2)
  /\ CallNext ∉ (jwtAuthMiddleware JwtKey next now r).2.
Proof.
  intros Hs Hb Hd. rewrite jwtAuthMiddleware_cases. cbv zeta.
  rewrite SplitN_two in Hs.
  destruct (cut " " (http.Get (http.Header r) "Authorization"))
    as [[a b]|] eqn:Hc; [|done].
  injection Hs as -> ->.
  destruct (String.eqb_spec (http.Get (http.Header r) "Authorization")
              EmptyString) as [E|_].
  { rewrite E in Hc. done. }
  rewrite Hb, String.eqb_refl.
  unfold decoded in Hd.
  destruct (Decode JwtKey tokenStr now) as [res calls] eqn:HD.
  cbn [fst snd] in *. subst res. destruct t; (split; [done|]).
  all: cbn [snd]; intros Hin; apply elem_of_cons in Hin as [Hin|Hin];
    [done|].
  all: destruct (ParseUnverified tokenStr) as [[t' parts] [e'|]] eqn:Hp.
  all: try (rewrite (Decode_unparsed _ _ _ _ parts e' Hp) in HD;
            injection HD as _ _ <-; by apply elem_of_nil in Hin).
  all: destruct (ParseUnverified_ok _ _ _ Hp)
      as (q0 & q1 & q2 & hb & header & cb & claims & m & -> & Hsp & H0 & H1
          & H2 & H3 & H4 & ->);
    rewrite (Decode_of_parts JwtKey tokenStr q0 q1 q2 hb cb header claims m now)
      in HD by done;
    repeat (match type of HD with
            | context [match ?x with _ => _ end] => destruct x
            | context [if ?x then _ else _] => destruct x
            end);
    injection HD as _ _ <-;
    repeat (apply elem_of_cons in Hin as [Hin|Hin]; [done|]);
    by apply elem_of_nil in Hin.
Qed.

Lemma codec_failures_collapse_witness :
  SplitN (http.Get (http.Header (bearerRequest ("Bearer " +:+ aliceToken)))
            "Authorization") " " 2 = ["Bearer"; aliceToken]
  /\ ToLower "Bearer" = "bearer"
  /\ decoded mainJwtKey aliceToken (1800000000 * second)
     = Return (Some aliceParsed, Some [ErrTokenInvalidClaims; ErrTokenExpired])
  /\ jwtAuthMiddleware mainJwtKey greet (1800000000 * second)
       (bearerRequest ("Bearer " +:+ aliceToken))
     = (Return (http.Error "invalid token" http.StatusUnauthorized),
        CallParse aliceToken
          :: (Decode mainJwtKey aliceToken (1800000000 * second)).2)
  /\ CallNext ∉ (jwtAuthMiddleware mainJwtKey greet (1800000000 * second)
                   (bearerRequest ("Bearer " +:+ aliceToken))).2.
Proof.
  assert (Hs : SplitN (http.Get (http.Header
                 (bearerRequest ("Bearer " +:+ aliceToken))) "Authorization")
                 " " 2 = ["Bearer"; aliceToken]) by (vm_compute; reflexivity).
  assert (Hl : ToLower "Bearer" = "bearer") by reflexivity.
  assert (Hd : decoded mainJwtKey aliceToken (1800000000 * second)
               = Return (Some aliceParsed,
                         Some [ErrTokenInvalidClaims; ErrTokenExpired]))
    by (vm_compute; reflexivity).
  split; [exact Hs|]. split; [exact Hl|]. split; [exact Hd|].
  exact (codec_failures_collapse mainJwtKey greet (1800000000 * second)
           (bearerRequest ("Bearer " +:+ aliceToken)) "Bearer" aliceToken
           (Some aliceParsed) [ErrTokenInvalidClaims; ErrTokenExpired]
           Hs Hl Hd).
Defined.

(** * Further properties of the two services *)

#[local] Opaque loginToken.

(** ** Login *)

Lemma Some_eq_inv {A : Type} (a b : A) : Some a = Some b -> a = b.
Proof. by intros [= ->]. Qed.

(** What [HandleLogin] does for the credentials of the reference
    record: two readings of the clock, one token, the answer 200. *)
Lemma HandleLogin_match (JwtKey : bytes) (OurUser : User)
    (decodeUser : bytes -> option User) (c : Clock) (r : http.Request)
    (req : User) :
  decodeUser (http.Body r) = Some req ->
  Username req = Username OurUser -> Password req = Password OurUser ->
  HandleLogin JwtKey OurUser decodeUser c r
  = (Return {| http.StatusCode := http.StatusOK;
               http.ResponseHeader := ∅;
               http.ResponseBody :=
                 json_Encode
                   {[ "access_token" :=
                        VStr (loginToken JwtKey (Username OurUser)
                                (reading c (reads c))
                                (reading c (S (reads c))));
                      "token_type" := VStr "bearer" ]} |},
     readTwice c).
Proof.
  intros Hd Hu Hp. unfold HandleLogin.
  rewrite Hd, Hu, Hp, !String.eqb_refl.
  cbn [negb orb time_Now reading reads]. cbv zeta.
  destruct (Parse_signed SigningMethodHS256 SHA256
              (claimsOf (loginClaims (Username OurUser) (reading c (reads c))
                           (reading c (S (reads c))))) JwtKey 0 eq_refl)
    as [Hs _].
  change {[ "sub" := VStr (Username OurUser);
            "iat" := VNum (Unix (reading c (reads c)));
            "exp" := VNum (Unix (Add (reading c (S (reads c))) (24 * Hour))) ]}
    with (claimsOf (loginClaims (Username OurUser) (reading c (reads c))
                      (reading c (S (reads c))))).
  rewrite Hs. reflexivity.
Qed.

Lemma HandleLogin_mismatch (JwtKey : bytes) (OurUser : User)
    (decodeUser : bytes -> option User) (c : Clock) (r : http.Request)
    (req : User) :
  decodeUser (http.Body r) = Some req ->
  ~ (Username req = Username OurUser /\ Password req = Password OurUser) ->
  HandleLogin JwtKey OurUser decodeUser c r
  = (Return (http.Error "invalid credentials" http.StatusUnauthorized), c).
Proof.
  intros Hd Hm. unfold HandleLogin. rewrite Hd.
  destruct (String.eqb_spec (Password req) (Password OurUser)) as [Ep|Ep];
    destruct (String.eqb_spec (Username req) (Username OurUser)) as [Eu|Eu];
    try reflexivity.
  by destruct Hm.
Qed.



Lemma issued_token_Error (msg : string) (code : Z) (c : Clock) :
  msg = "bad request" \/ msg = "invalid credentials" ->
  issued_token (Return (http.Error msg code), c) = None.
Proof.
  unfold issued_token. cbn [fst http.ResponseBody http.Error].
  intros [-> | ->].
  - assert (json_Unmarshal ("bad request" +:+ http.newline) = None) as ->
      by (vm_compute; reflexivity). done.
  - assert (json_Unmarshal ("invalid credentials" +:+ http.newline) = None)
      as -> by (vm_compute; reflexivity). done.
Qed.

Lemma issued_token_match (JwtKey : bytes) (OurUser : User)
    (decodeUser : bytes -> option User) (c : Clock) (r : http.Request)
    (req : User) :
  decodeUser (http.Body r) = Some req ->
  Username req = Username OurUser -> Password req = Password OurUser ->
  issued_token (HandleLogin JwtKey OurUser decodeUser c r)
  = Some (loginToken JwtKey (Username OurUser) (reading c (reads c))
            (reading c (S (reads c)))).
Proof.
  intros Hd Hu Hp. rewrite (HandleLogin_match _ _ _ _ _ req) by done.
  unfold issued_token. cbn [fst http.ResponseBody]. unfold json_Encode.
  rewrite json_Unmarshal_Marshal_ws by reflexivity. reflexivity.
Qed.

(** A token in the answer means matching credentials, and says which
    token it is. *)
Lemma issued_token_inv (JwtKey : bytes) (OurUser : User)
    (decodeUser : bytes -> option User) (c : Clock) (r : http.Request)
    (tok : string) :
  issued_token (HandleLogin JwtKey OurUser decodeUser c r) = Some tok ->
  matching OurUser decodeUser r
  /\ tok = loginToken JwtKey (Username OurUser) (reading c (reads c))
             (reading c (S (reads c))).
Proof.
  intros Hi.
  destruct (decodeUser (http.Body r)) as [req|] eqn:Hd.
  - destruct (decide (Username req = Username OurUser
                      /\ Password req = Password OurUser)) as [[Hu Hp]|Hm].
    + rewrite (issued_token_match _ _ _ _ _ req Hd Hu Hp) in Hi.
      apply Some_eq_inv in Hi. split.
      * exists req. split; [exact Hd|]. split; [exact Hu|exact Hp].
      * symmetry. exact Hi.
    + rewrite (HandleLogin_mismatch _ _ _ _ _ req Hd Hm) in Hi.
      rewrite issued_token_Error in Hi by auto. done.
  - unfold HandleLogin in Hi. rewrite Hd in Hi.
    rewrite issued_token_Error in Hi by auto. done.
Qed.


(** ** The middleware as a guard *)

Lemma Decode_calls_no_next (JwtKey : bytes) (tok : string) (now : Z) :
  CallNext ∉ (Decode JwtKey tok now).2.
Proof. intros H. by apply Decode_calls in H. Qed.

(** X2. The middleware never panics of its own and never lets a request
    through unverified: either it answers 401 itself, with one of its
    three messages and without calling the wrapped handler, or the text
    after the first space of a bearer header is a token that [Decode]
    accepts, and then the wrapped handler is called once, last, on the
    same request with the claims of that token stored in its context
    under the key "claims". *)
Theorem middleware_guards_next (JwtKey : bytes) (next : http.Handler)
    (now : Z) (r : http.Request) :
  (exists msg calls,
      jwtAuthMiddleware JwtKey next now r
      = (Return (http.Error msg http.StatusUnauthorized), calls)
      /\ msg ∈ middlewareMessages
      /\ CallNext ∉ calls)
  \/ (exists a tok t calls,
        cut " " (http.Get (http.Header r) "Authorization") = Some (a, tok)
        /\ ToLower a = "bearer"
        /\ Decode JwtKey tok now = (Return (Some t, None), calls)
        /\ Valid t = true
        /\ accepts JwtKey tok now = true
        /\ jwtAuthMiddleware JwtKey next now r
           = (next (http.WithValue r ClaimsContextKey (Claims t)),
              CallParse tok :: calls ++ [CallNext])
        /\ http.Header (http.WithValue r ClaimsContextKey (Claims t))
           = http.Header r
        /\ http.Body (http.WithValue r ClaimsContextKey (Claims t))
           = http.Body r
        /\ http.Context (http.WithValue r ClaimsContextKey (Claims t))
             !! ClaimsContextKey = Some (Claims t)).
Proof.
  rewrite jwtAuthMiddleware_cases. cbv zeta.
  set (h := http.Get (http.Header r) "Authorization").
  assert (Hmsg : forall msg (calls : list Call), msg ∈ middlewareMessages ->
            CallNext ∉ calls ->
            exists msg' calls',
              (Return (http.Error msg http.StatusUnauthorized), calls)
              = (@Return http.Response
                   (http.Error msg' http.StatusUnauthorized), calls')
              /\ msg' ∈ middlewareMessages /\ CallNext ∉ calls').
  { intros msg calls Hin Hn. by exists msg, calls. }
  assert (Hnil : CallNext ∉ @nil Call) by (intros H; by apply elem_of_nil in H).
  destruct (String.eqb h EmptyString).
  { left. apply Hmsg; [|done]. unfold middlewareMessages. set_solver. }
  destruct (cut " " h) as [[a tok]|] eqn:Hc.
  2:{ left. apply Hmsg; [|done]. unfold middlewareMessages. set_solver. }
  destruct (String.eqb_spec (ToLower a) "bearer") as [Hb|Hb].
  2:{ left. apply Hmsg; [|done]. unfold middlewareMessages. set_solver. }
  pose proof (Decode_calls_no_next JwtKey tok now) as Hnn.
  destruct (Decode_returns JwtKey tok now) as (t & e & calls & HD & Hv).
  rewrite HD in *. cbn [snd] in Hnn.
  assert (Hrej : CallNext ∉ CallParse tok :: calls).
  { intros H. apply elem_of_cons in H as [H|H]; [done|]. by apply Hnn. }
  destruct e as [e|].
  { left. destruct t; (apply Hmsg; [unfold middlewareMessages; set_solver|done]). }
  destruct (Hv eq_refl) as (t' & -> & Hvalid).
  right. exists a, tok, t', calls. repeat split; try done.
  - unfold accepts, decoded. by rewrite HD.
  - cbn [http.Context http.WithValue]. by rewrite lookup_insert_eq.
Qed.

(** ** From login to the protected route *)

Lemma lower_byte_space (c : ascii) :
  Ascii.eqb (lower_byte c) " " = Ascii.eqb c " ".
Proof. by destruct c as [[] [] [] [] [] [] [] []]. Qed.

Lemma Count_space_ToLower (s : string) :
  Count " " (ToLower s) = Count " " s.
Proof.
  induction s as [|c s IH]; [done|].
  cbn [ToLower Count]. by rewrite lower_byte_space, IH.
Qed.

(** A scheme that reads bearer in some capitalisation has no space, so
    the header is cut right after it. *)
Lemma cut_scheme (scheme tok : string) :
  ToLower scheme = "bearer" ->
  cut " " (scheme +:+ " " +:+ tok) = Some (scheme, tok)
  /\ String.eqb (scheme +:+ " " +:+ tok) EmptyString = false.
Proof.
  intros H. split.
  - change (" " +:+ tok) with (String " "%char tok). apply cut_app.
    rewrite <- Count_space_ToLower, H. reflexivity.
  - by destruct scheme.
Qed.

Lemma Validate_claimsOf_cases (cs : ClaimSet) (now : Z) :
  Validate (claimsOf cs) now
  = if (expiresAt cs =? 0) || (now <? expiresAt cs * second) then None
    else Some [ErrTokenExpired].
Proof.
  unfold Validate, verifyExpiresAt, verifyNotBefore, parseNumericDate.
  change (claimsOf cs !! "exp") with (Some (VNum (expiresAt cs))).
  change (claimsOf cs !! "nbf") with (@None Value).
  cbv beta iota. destruct (expiresAt cs =? 0); [reflexivity|].
  by destruct (now <? expiresAt cs * second).
Qed.

(** The verdict of [Decode] on a token signed as [HandleLogin] signs
    it, under the same key. *)
Lemma Decode_loginToken (JwtKey : bytes) (username : string) (t1 t2 now : Z) :
  let cs := loginClaims username t1 t2 in
  let tok := loginToken JwtKey username t1 t2 in
  exists t calls,
    Claims t = claimsOf cs /\ Valid t = true
    /\ (CallNext ∉ calls)
    /\ Decode JwtKey tok now =
       if (expiresAt cs =? 0) || (now <? expiresAt cs * second)
       then (Return (Some t, None), calls)
       else (Return (Some {| Raw := Raw t; Method := Method t; Header := Header t;
                             Claims := Claims t; Signature := EmptyString;
                             Valid := false |},
                     Some [ErrTokenInvalidClaims; ErrTokenExpired]), calls).
Proof.
  intros cs tok.
  destruct (Parse_signed SigningMethodHS256 SHA256 (claimsOf cs) JwtKey now
              eq_refl) as [_ Hp].
  rewrite Validate_claimsOf_cases in Hp.
  set (sstr := SigningString (NewWithClaims SigningMethodHS256 (claimsOf cs)))
    in *.
  exists (validated
            {| Raw := sstr +:+ "." +:+ EncodeSegment (hmac_sum SHA256 JwtKey sstr);
               Method := Some SigningMethodHS256;
               Header := Header (NewWithClaims SigningMethodHS256 (claimsOf cs));
               Claims := claimsOf cs; Signature := EmptyString;
               Valid := false |} (hmac_sum SHA256 JwtKey sstr)),
    [CallKeyfunc (Alg SigningMethodHS256);
     CallVerify SigningMethodHS256 sstr (hmac_sum SHA256 JwtKey sstr) JwtKey;
     CallValidate].
  split; [reflexivity|]. split; [reflexivity|]. split.
  2:{ unfold Decode, tok.
      with_strategy transparent [loginToken] (unfold loginToken).
      cbv zeta. fold sstr. etransitivity; [exact Hp|].
      destruct ((expiresAt cs =? 0) || (now <? expiresAt cs * second));
        reflexivity. }
  intros H. repeat (apply elem_of_cons in H as [H|H]; [discriminate H|]).
  by apply elem_of_nil in H.
Qed.

(** X3. The two services composed.  A token that [HandleLogin] has
    issued, sent under a scheme that reads bearer in any capitalisation,
    makes the middleware of a service holding the same key call the
    wrapped handler for as long as the expiry (the second reading of
    the login clock plus 24 hours, in whole seconds) lies ahead, and the
    handler then reads the user name of the reference record from the
    request context; from the expiry on the middleware answers 401
    "invalid token" and does not call the handler.  In real time the
    expiry lies at most 24 hours, and more than 24 hours less a second,
    after the second reading of the login clock.  An expiry that falls
    on the first second of 1970 never ends. *)
Theorem issued_token_opens_route (JwtKey : bytes) (OurUser : User)
    (decodeUser : bytes -> option User) (c : Clock)
    (login r : http.Request) (next : http.Handler) (scheme tok : string)
    (now : Z) :
  issued_token (HandleLogin JwtKey OurUser decodeUser c login) = Some tok ->
  ToLower scheme = "bearer" ->
  http.Get (http.Header r) "Authorization" = scheme +:+ " " +:+ tok ->
  let exp := Unix (reading c (S (reads c))) + day in
  (now < exp * second \/ exp = 0 ->
   exists (r' : http.Request) (calls : list Call),
     jwtAuthMiddleware JwtKey next now r = (next r', calls)
     /\ last calls = Some CallNext
     /\ http.Header r' = http.Header r /\ http.Body r' = http.Body r
     /\ option_map claimSetOf (http.Context r' !! ClaimsContextKey)
        = Some (Some {| subject := Username OurUser;
                        issuedAt := Unix (reading c (reads c));
                        expiresAt := exp |})
     /\ contextUsername r' = Return (Username OurUser))
  /\ (exp * second <= now /\ exp <> 0 ->
      exists calls : list Call,
        jwtAuthMiddleware JwtKey next now r
        = (Return (http.Error "invalid token" http.StatusUnauthorized), calls)
        /\ CallNext ∉ calls)
  /\ exp * second <= reading c (S (reads c)) + 24 * Hour < exp * second + second.
Proof.
  intros Hi Hb Hh exp.
  apply issued_token_inv in Hi as [_ ->].
  rewrite jwtAuthMiddleware_cases. cbv zeta. rewrite Hh.
  destruct (cut_scheme scheme
              (loginToken JwtKey (Username OurUser) (reading c (reads c))
                 (reading c (S (reads c)))) Hb) as [-> ->].
  rewrite Hb, String.eqb_refl.
  destruct (Decode_loginToken JwtKey (Username OurUser) (reading c (reads c))
              (reading c (S (reads c))) now)
    as (t & calls & Hcl & Hvalid & Hnn & ->).
  cbn [expiresAt loginClaims]. rewrite Unix_Add_day. fold exp.
  split.
  - intros Hlive.
    assert ((exp =? 0) || (now <? exp * second) = true) as ->.
    { apply orb_true_iff. destruct Hlive as [H|H];
        [right; by apply Z.ltb_lt|left; by apply Z.eqb_eq]. }
    eexists _, _. split; [reflexivity|].
    split; [by rewrite app_comm_cons, last_snoc|].
    split; [reflexivity|]. split; [reflexivity|].
    unfold contextUsername. cbn [http.Context http.WithValue].
    rewrite lookup_insert_eq, Hcl. cbn [option_map].
    rewrite claimSetOf_claimsOf. split; [|reflexivity].
    unfold loginClaims. by rewrite Unix_Add_day.
  - split.
    + intros [Hpast Hne].
      assert ((exp =? 0) || (now <? exp * second) = false) as ->.
      { apply orb_false_iff. split; [by apply Z.eqb_neq|apply Z.ltb_ge; lia]. }
      eexists. split; [reflexivity|].
      intros H. apply elem_of_cons in H as [H|H]; [discriminate H|by apply Hnn].
    + unfold exp, Unix, day, Hour, second.
      pose proof (Z.div_mod (reading c (S (reads c))) 1000000000) as Hdm.
      pose proof (Z.mod_pos_bound (reading c (S (reads c))) 1000000000) as Hmb.
      lia.
Qed.

Lemma issued_token_opens_route_witness :
  issued_token
    (HandleLogin mainJwtKey alice decodeUserJSON
       (steadyClock (1700000000 * second) 1) (loginRequest aliceBody))
  = Some aliceToken
  /\ ToLower "BEARER" = "bearer"
  /\ http.Get (http.Header (bearerRequest ("BEARER" +:+ " " +:+ aliceToken)))
       "Authorization"
     = "BEARER" +:+ " " +:+ aliceToken
  /\ let exp :=
       Unix (reading (steadyClock (1700000000 * second) 1)
               (S (reads (steadyClock (1700000000 * second) 1)))) + day in
     (1700000001 * second < exp * second \/ exp = 0 ->
      exists (r' : http.Request) (calls : list Call),
        jwtAuthMiddleware mainJwtKey greet (1700000001 * second)
          (bearerRequest ("BEARER" +:+ " " +:+ aliceToken))
        = (greet r', calls)
        /\ last calls = Some CallNext
        /\ http.Header r'
           = http.Header (bearerRequest ("BEARER" +:+ " " +:+ aliceToken))
        /\ http.Body r'
           = http.Body (bearerRequest ("BEARER" +:+ " " +:+ aliceToken))
        /\ option_map claimSetOf (http.Context r' !! ClaimsContextKey)
           = Some (Some {| subject := Username alice;
                           issuedAt :=
                             Unix (reading
                                     (steadyClock (1700000000 * second) 1)
                                     (reads
                                        (steadyClock (1700000000 * second) 1)));
                           expiresAt := exp |})
        /\ contextUsername r' = Return (Username alice))
     /\ (exp * second <= 1700000001 * second /\ exp <> 0 ->
         exists calls : list Call,
           jwtAuthMiddleware mainJwtKey greet (1700000001 * second)
             (bearerRequest ("BEARER" +:+ " " +:+ aliceToken))
           = (Return (http.Error "invalid token" http.StatusUnauthorized),
              calls)
           /\ CallNext ∉ calls)
     /\ exp * second
        <= reading (steadyClock (1700000000 * second) 1)
             (S (reads (steadyClock (1700000000 * second) 1))) + 24 * Hour
        < exp * second + second.
Proof.
  assert (Hi : issued_token
                 (HandleLogin mainJwtKey alice decodeUserJSON
                    (steadyClock (1700000000 * second) 1)
                    (loginRequest aliceBody))
               = Some aliceToken) by (vm_compute; reflexivity).
  split; [exact Hi|]. split; [reflexivity|]. split; [reflexivity|].
  exact (issued_token_opens_route mainJwtKey alice decodeUserJSON
           (steadyClock (1700000000 * second) 1) (loginRequest aliceBody)
           (bearerRequest ("BEARER" +:+ " " +:+ aliceToken)) greet
           "BEARER" aliceToken (1700000001 * second) Hi eq_refl eq_refl).
Defined.

(** ** What the middleware does not ask of the claims *)




(** ** The key *)




(** *** Keys that cannot be told apart *)

Lemma list_of_str_app (a b : string) :
  list_of_str (a +:+ b) = list_of_str a ++ list_of_str b.
Proof.
  induction a as [|x a IH]; [done|].
  rewrite app_String. cbn [list_of_str]. by rewrite IH.
Qed.

Lemma length_list_of_str (a : string) :
  length (list_of_str a) = String.length a.
Proof. induction a as [|x a IH]; [done|]. cbn. by rewrite IH. Qed.

(** [hmac.New] fills a key shorter than the block of the hash with
    zero bytes: a zero byte at the end of such a key changes nothing. *)
Lemma hmac_sha2_zero_pad (P : Sha2) (key msg : bytes) :
  (String.length key < block_bytes P)%nat ->
  hmac_sha2 P (key +:+ zeroByte) msg = hmac_sha2 P key msg.
Proof.
  intros Hlen. unfold hmac_sha2.
  rewrite str_length_app. change (String.length zeroByte) with 1%nat.
  assert ((block_bytes P <? String.length key + 1)%nat = false) as ->
    by (apply Nat.ltb_ge; lia).
  assert ((block_bytes P <? String.length key)%nat = false) as ->
    by (apply Nat.ltb_ge; lia).
  cbv zeta. rewrite list_of_str_app, map_app, length_app, !length_map,
    !length_list_of_str.
  change (String.length zeroByte) with 1%nat.
  replace (block_bytes P - String.length key)%nat
    with (S (block_bytes P - (String.length key + 1)))%nat by lia.
  cbn [replicate]. rewrite <- app_assoc. reflexivity.
Qed.

Lemma hmac_sum_zero_pad (h : Hash) (key msg : bytes) :
  (String.length key < 64)%nat ->
  hmac_sum h (key +:+ zeroByte) msg = hmac_sum h key msg.
Proof.
  intros Hlen.
  with_strategy transparent [hmac_sum] (unfold hmac_sum).
  apply hmac_sha2_zero_pad.
  destruct h; vm_compute; vm_compute in Hlen; lia.
Qed.

(** [Decode] depends on the key through the codes it gives only. *)
Lemma decoded_key_ext (K K' : bytes) (tok : string) (now : Z) :
  (forall h msg, hmac_sum h K' msg = hmac_sum h K msg) ->
  decoded K' tok now = decoded K tok now.
Proof.
  intros Hmac. unfold decoded.
  destruct (ParseUnverified tok) as [[t parts] [e|]] eqn:Hp.
  - by rewrite !(Decode_unparsed _ _ _ _ parts e Hp).
  - destruct (ParseUnverified_ok _ _ _ Hp)
      as (p0 & p1 & p2 & hb & header & cb & claims & m & -> & Hs & H0 & H1
          & H2 & H3 & H4 & ->).
    rewrite (Decode_of_parts K' tok p0 p1 p2 hb cb header claims m now)
      by done.
    rewrite (Decode_of_parts K tok p0 p1 p2 hb cb header claims m now)
      by done.
    destruct (DecodeSegment p2) as [sig|]; [|reflexivity].
    destruct (hmac_hash m) as [h|]; [|reflexivity].
    rewrite Hmac. destruct (String.eqb _ _); [|reflexivity].
    by destruct (Validate claims now).
Qed.

(** X6. The key is not the only one that opens the service.  For a
    key shorter than 64 bytes (the one of the two [main] functions has
    14) the key followed by a zero byte is another byte string, and
    yet the two cannot be told apart: they sign every claim set into
    the same token, and a service holding one gives on every token
    string, at every time, the verdict of a service holding the
    other. *)
Theorem zero_padded_key_interchangeable (K : bytes) :
  (String.length K < 64)%nat ->
  K +:+ zeroByte <> K
  /\ (forall claims, Encode (K +:+ zeroByte) claims = Encode K claims)
  /\ (forall tok now, decoded (K +:+ zeroByte) tok now = decoded K tok now)
  /\ (forall tok now, accepts (K +:+ zeroByte) tok now = accepts K tok now)
  /\ (forall tok now s,
        rejects_with (K +:+ zeroByte) tok now s = rejects_with K tok now s).
Proof.
  intros Hlen.
  assert (Hmac : forall h msg,
            hmac_sum h (K +:+ zeroByte) msg = hmac_sum h K msg)
    by (intros h msg; by apply hmac_sum_zero_pad).
  split.
  { intros E. apply (f_equal String.length) in E.
    rewrite str_length_app in E. change (String.length zeroByte) with 1%nat in E.
    lia. }
  split.
  { intros claims. unfold Encode, SignedString, Sign.
    cbn [Method NewWithClaims hmac_hash]. cbv zeta. by rewrite Hmac. }
  split; [intros tok now; by apply decoded_key_ext|].
  split.
  - intros tok now. unfold accepts.
    by rewrite (decoded_key_ext K (K +:+ zeroByte) tok now Hmac).
  - intros tok now s. unfold rejects_with.
    by rewrite (decoded_key_ext K (K +:+ zeroByte) tok now Hmac).
Qed.

Lemma zero_padded_key_interchangeable_witness :
  (String.length mainJwtKey < 64)%nat
  /\ (mainJwtKey +:+ zeroByte <> mainJwtKey
      /\ (forall claims,
            Encode (mainJwtKey +:+ zeroByte) claims = Encode mainJwtKey claims)
      /\ (forall tok now,
            decoded (mainJwtKey +:+ zeroByte) tok now
            = decoded mainJwtKey tok now)
      /\ (forall tok now,
            accepts (mainJwtKey +:+ zeroByte) tok now
            = accepts mainJwtKey tok now)
      /\ (forall tok now s,
            rejects_with (mainJwtKey +:+ zeroByte) tok now s
            = rejects_with mainJwtKey tok now s)).
Proof.
  assert (Hlen : (String.length mainJwtKey < 64)%nat) by (vm_compute; lia).
  split; [exact Hlen|].
  exact (zero_padded_key_interchangeable mainJwtKey Hlen).
Defined.

(** ** The bytes of a token *)

Lemma b64_sextets_bytes (s : string) (l : list sextet) :
  b64_sextets s = Some l -> forallb tokenByte (list_of_str s) = true.
Proof.
  revert l. induction s as [|c s IH]; intros l E; [done|].
  cbn [b64_sextets] in E. cbn [list_of_str forallb]. unfold tokenByte at 1.
  destruct (Ascii.eqb c "010"%char || Ascii.eqb c "013"%char) eqn:Hskip.
  - rewrite (IH l E), andb_true_r.
    destruct (char_sextet c); [done|].
    apply orb_true_iff in Hskip as [-> | ->]; by rewrite ?orb_true_r.
  - destruct (char_sextet c) as [x|]; [|done].
    destruct (b64_sextets s) as [l'|]; [|done]. by rewrite (IH l' eq_refl).
Qed.

Lemma DecodeSegment_bytes (seg : string) (b : bytes) :
  DecodeSegment seg = Some b -> forallb tokenByte (list_of_str seg) = true.
Proof.
  unfold DecodeSegment.
  with_strategy transparent [b64_decode] (unfold b64_decode).
  destruct (b64_sextets seg) as [l|] eqn:E; [|done].
  intros _. by apply (b64_sextets_bytes seg l).
Qed.

(** A token that [Decode] accepts is made of token bytes only. *)
Lemma accepts_bytes (JwtKey : bytes) (tok : string) (now : Z) :
  accepts JwtKey tok now = true ->
  forallb tokenByte (list_of_str tok) = true.
Proof.
  intros Hacc.
  destruct (accepts_inv _ _ _ Hacc)
    as (p0 & p1 & p2 & hb & header & cb & claims & m & h & Hs & H0 & _ & H2
        & _ & _ & _ & Hsig & _).
  destruct (Split_length tok) as (_ & _ & HJ). rewrite Hs in HJ.
  rewrite <- HJ. cbn [Join].
  rewrite !list_of_str_app, !forallb_app.
  rewrite (DecodeSegment_bytes _ _ H0), (DecodeSegment_bytes _ _ H2),
    (DecodeSegment_bytes _ _ Hsig).
  reflexivity.
Qed.

(** X7. The text after the first space of the header goes to the
    decoder as it is, further spaces included, but no such text is
    ever accepted: a token string that holds a space, or any byte
    other than the 64 characters of the base64url alphabet, the dot,
    the line feed and the carriage return, is refused by [Decode]
    under every key and at every time, and the middleware answers 401
    without calling the wrapped handler. *)
Theorem foreign_byte_refused (JwtKey : bytes) (next : http.Handler)
    (now : Z) (r : http.Request) (a b : string) :
  cut " " (http.Get (http.Header r) "Authorization") = Some (a, b) ->
  forallb tokenByte (list_of_str b) = false ->
  accepts JwtKey b now = false
  /\ exists (msg : string) (calls : list Call),
       jwtAuthMiddleware JwtKey next now r
       = (Return (http.Error msg http.StatusUnauthorized), calls)
       /\ CallNext ∉ calls.
Proof.
  intros Hc Hb.
  assert (Hacc : accepts JwtKey b now = false).
  { destruct (accepts JwtKey b now) eqn:E; [|reflexivity].
    apply accepts_bytes in E. rewrite E in Hb. discriminate Hb. }
  split; [exact Hacc|].
  assert (Hnil : CallNext ∉ @nil Call) by (intros H; by apply elem_of_nil in H).
  rewrite jwtAuthMiddleware_cases. cbv zeta. rewrite Hc.
  destruct (String.eqb _ EmptyString); [by eexists _, _|].
  destruct (String.eqb (ToLower a) "bearer"); [|by eexists _, _].
  pose proof (Decode_calls_no_next JwtKey b now) as Hnn.
  unfold accepts, decoded in Hacc.
  destruct (Decode_returns JwtKey b now) as (t & e & calls & HD & Hv).
  rewrite HD in *. cbn [fst snd] in *.
  assert (Hrej : CallNext ∉ CallParse b :: calls).
  { intros H. apply elem_of_cons in H as [H|H]; [discriminate H|by apply Hnn]. }
  destruct e as [e|].
  - destruct t; by eexists _, _.
  - destruct (Hv eq_refl) as (t' & -> & Hvalid). rewrite Hvalid in Hacc.
    discriminate Hacc.
Qed.

Lemma foreign_byte_refused_witness :
  cut " " (http.Get (http.Header
                       (bearerRequest ("Bearer " +:+ aliceToken +:+ " ")))
             "Authorization")
  = Some ("Bearer", aliceToken +:+ " ")
  /\ forallb tokenByte (list_of_str (aliceToken +:+ " ")) = false
  /\ accepts mainJwtKey (aliceToken +:+ " ") (1700000001 * second) = false
  /\ exists (msg : string) (calls : list Call),
       jwtAuthMiddleware mainJwtKey greet (1700000001 * second)
         (bearerRequest ("Bearer " +:+ aliceToken +:+ " "))
       = (Return (http.Error msg http.StatusUnauthorized), calls)
       /\ CallNext ∉ calls.
Proof.
  assert (Hb : forallb tokenByte (list_of_str (aliceToken +:+ " ")) = false)
    by (vm_compute; reflexivity).
  split; [reflexivity|]. split; [exact Hb|].
  exact (foreign_byte_refused mainJwtKey greet (1700000001 * second)
           (bearerRequest ("Bearer " +:+ aliceToken +:+ " "))
           "Bearer" (aliceToken +:+ " ") eq_refl Hb).
Defined.

(** ** What a token shows and what it does not hold *)

(** The parser on a token as [SignedString] builds it, whatever stands
    in the place of the signature. *)
Lemma ParseUnverified_signed (m : SigningMethod) (claims : gmap string Value)
    (sig : bytes) :
  let t0 := NewWithClaims m claims in
  let tok := SigningString t0 +:+ "." +:+ EncodeSegment sig in
  ParseUnverified tok
  = (Some {| Raw := tok; Method := Some m; Header := Header t0;
             Claims := claims; Signature := EmptyString; Valid := false |},
     [EncodeSegment (json_Marshal (Header t0));
      EncodeSegment (json_Marshal claims); EncodeSegment sig], None).
Proof.
  intros t0 tok.
  assert (Htok : tok = EncodeSegment (json_Marshal (Header t0)) +:+ "."
                   +:+ EncodeSegment (json_Marshal claims) +:+ "."
                   +:+ EncodeSegment sig).
  { unfold tok, SigningString. cbn [Claims t0 NewWithClaims].
    by rewrite !str_app_assoc. }
  rewrite Htok.
  apply (ParseUnverified_segments _ _ _ m);
    [reflexivity|apply Count_b64_encode].
Qed.


(** The claims a token string carries, read without any key. *)
Lemma claims_of_signed (m : SigningMethod) (claims : gmap string Value)
    (sig : bytes) :
  option_map Claims
    (ParseUnverified
       (SigningString (NewWithClaims m claims) +:+ "."
          +:+ EncodeSegment sig)).1.1
  = Some claims.
Proof.
  pose proof (ParseUnverified_signed m claims sig) as H. cbv zeta in H.
  rewrite H. reflexivity.
Qed.



(** *** Logins in one second *)

Lemma loginToken_claims (JwtKey : bytes) (username : string) (t1 t2 : Z) :
  option_map Claims (ParseUnverified (loginToken JwtKey username t1 t2)).1.1
  = Some (claimsOf (loginClaims username t1 t2)).
Proof.
  with_strategy transparent [loginToken] (unfold loginToken). cbv zeta.
  apply claims_of_signed.
Qed.

Lemma claimsOf_inj (cs cs' : ClaimSet) : claimsOf cs = claimsOf cs' -> cs = cs'.
Proof.
  intros H. apply (f_equal claimSetOf) in H.
  rewrite !claimSetOf_claimsOf in H. exact (Some_eq_inv _ _ H).
Qed.

(** X9. A token carries no nonce: it is a function of the user name and
    of the two seconds its clock readings fall in.  Two logins that
    [HandleLogin] answers with a token get the same token exactly when
    the first readings of their clocks fall in the same second and the
    second readings do; the bodies of the two requests and the
    nanoseconds play no part. *)
Theorem tokens_carry_no_nonce (JwtKey : bytes) (OurUser : User)
    (decodeUser : bytes -> option User) (c c' : Clock)
    (r r' : http.Request) (tok tok' : string) :
  issued_token (HandleLogin JwtKey OurUser decodeUser c r) = Some tok ->
  issued_token (HandleLogin JwtKey OurUser decodeUser c' r') = Some tok' ->
  tok = tok'
  <-> (Unix (reading c (reads c)) = Unix (reading c' (reads c'))
       /\ Unix (reading c (S (reads c))) = Unix (reading c' (S (reads c')))).
Proof.
  intros Hi Hi'.
  apply issued_token_inv in Hi as [_ ->].
  apply issued_token_inv in Hi' as [_ ->].
  split.
  - intros E.
    pose proof (loginToken_claims JwtKey (Username OurUser)
                  (reading c (reads c)) (reading c (S (reads c)))) as H1.
    pose proof (loginToken_claims JwtKey (Username OurUser)
                  (reading c' (reads c')) (reading c' (S (reads c')))) as H2.
    rewrite E, H2 in H1. apply Some_eq_inv, claimsOf_inj in H1.
    unfold loginClaims in H1. rewrite !Unix_Add_day in H1.
    pose proof (f_equal issuedAt H1) as Ha.
    pose proof (f_equal expiresAt H1) as Hb.
    cbn [issuedAt expiresAt] in Ha, Hb. split; lia.
  - intros [E1 E2].
    with_strategy transparent [loginToken] (unfold loginToken, loginClaims).
    rewrite !Unix_Add_day, E1, E2. reflexivity.
Qed.

Lemma tokens_carry_no_nonce_witness :
  issued_token
    (HandleLogin mainJwtKey alice decodeUserJSON
       (steadyClock (1700000000 * second) 1) (loginRequest aliceBody))
  = Some aliceToken
  /\ issued_token
       (HandleLogin mainJwtKey alice decodeUserJSON
          (steadyClock (1700000000 * second + 500000000) 2)
          (loginRequest aliceBody))
     = Some aliceToken
  /\ (aliceToken = aliceToken
      <-> (Unix (reading (steadyClock (1700000000 * second) 1)
                   (reads (steadyClock (1700000000 * second) 1)))
           = Unix (reading (steadyClock (1700000000 * second + 500000000) 2)
                     (reads
                        (steadyClock (1700000000 * second + 500000000) 2)))
           /\ Unix (reading (steadyClock (1700000000 * second) 1)
                      (S (reads (steadyClock (1700000000 * second) 1))))
              = Unix (reading
                        (steadyClock (1700000000 * second + 500000000) 2)
                        (S (reads
                              (steadyClock
                                 (1700000000 * second + 500000000) 2)))))).
Proof.
  assert (H1 : issued_token
                 (HandleLogin mainJwtKey alice decodeUserJSON
                    (steadyClock (1700000000 * second) 1)
                    (loginRequest aliceBody))
               = Some aliceToken) by (vm_compute; reflexivity).
  assert (H2 : issued_token
                 (HandleLogin mainJwtKey alice decodeUserJSON
                    (steadyClock (1700000000 * second + 500000000) 2)
                    (loginRequest aliceBody))
               = Some aliceToken) by (vm_compute; reflexivity).
  split; [exact H1|]. split; [exact H2|].
  exact (tokens_carry_no_nonce mainJwtKey alice decodeUserJSON
           (steadyClock (1700000000 * second) 1)
           (steadyClock (1700000000 * second + 500000000) 2)
           (loginRequest aliceBody) (loginRequest aliceBody)
           aliceToken aliceToken H1 H2).
Defined.
